(** * Stripe payment adapter: a shallow embedding of [StripeService]

    Source: packages/payments-plugin/src/stripe/stripe.service.ts

    The service is a thin orchestration layer over three collaborators: the
    Stripe client, the TypeORM connection and the logger.  Its methods are
    embedded as computations in a small monad that threads the persistent
    store and the remote gateway state, may throw, and records every call
    made to a collaborator in an event log. *)

From Stdlib Require Import String Ascii List Bool ZArith QArith Qround Lia.
From Stdlib Require Import DecimalString.
Import ListNotations.

Local Open Scope string_scope.
Local Open Scope Z_scope.

(* ------------------------------------------------------------------ *)
(** ** JavaScript values used by the service *)

(** Modelled from the spec: the identifier type [ID] of @vendure/common, whose
    declaration is not part of the source at hand; the spec only speaks of
    identifiers, and an identifier is a string or a number. *)
Inductive ID : Type :=
| IdStr (s : string)
| IdNum (n : Z).

Definition ID_eqb (a b : ID) : bool :=
  match a, b with
  | IdStr s, IdStr t => String.eqb s t
  | IdNum n, IdNum m => Z.eqb n m
  | _, _ => false
  end.

(** Template-literal conversion [`${id}`]. *)
Definition ID_toString (i : ID) : string :=
  match i with
  | IdStr s => s
  | IdNum n => NilZero.string_of_int (Z.to_int n)
  end.

(** ToBoolean on the value shapes the service tests in an [if]. *)
Definition truthy_string (s : string) : bool :=
  negb (String.eqb s "").

Definition truthy_opt_string (v : option string) : bool :=
  match v with
  | Some s => truthy_string s
  | None => false
  end.

Definition truthy_opt_ID (v : option ID) : bool :=
  match v with
  | Some (IdStr s) => truthy_string s
  | Some (IdNum n) => negb (Z.eqb n 0)
  | None => false
  end.

(** [String.prototype.toLowerCase], on the ASCII range that currency codes
    live in. *)
Definition ascii_toLowerCase (c : ascii) : ascii :=
  let n := nat_of_ascii c in
  if (Nat.leb 65 n && Nat.leb n 90)%bool then ascii_of_nat (n + 32) else c.

Fixpoint String_toLowerCase (s : string) : string :=
  match s with
  | EmptyString => EmptyString
  | String c r => String (ascii_toLowerCase c) (String_toLowerCase r)
  end.

(** [Math.round]: the nearest integer, a tie going towards +infinity.
    Numbers are taken as exact rationals.  The only argument the service
    passes is [totalWithTax / 100] for an integer total; below 2^53 the
    double quotient lies on the same side of every half-integer as the exact
    one, so both round to the same integer. *)
Definition Math_round (x : Q) : Z := Qfloor (x + (1 # 2))%Q.

(** Modelled from the spec: [CurrencyCode] of @vendure/core, "an enumerated
    ISO code"; the service lower-cases it as a string. *)
Definition CurrencyCode : Type := string.

(* ------------------------------------------------------------------ *)
(** ** [Intl.NumberFormat] *)

Module Intl.

Record NumberFormatOptions : Type := {
  style : string;
  currency : string;
  currencyDisplay : string
}.

Record NumberFormatPart : Type := {
  type : string;
  value : string
}.

(** [new Intl.NumberFormat(undefined, options).formatToParts(x)], supplied
    by the JavaScript runtime and its locale data. *)
Definition NumberFormat : Type := NumberFormatOptions -> Q -> list NumberFormatPart.

End Intl.

(* ------------------------------------------------------------------ *)
(** ** Entities of the order-management system *)

Module CustomFields.
(** Modelled from the spec: the customer's "extensible field bag including an
    optional remote-customer-identifier string". *)
Record t : Type := { stripeCustomerId : option string }.
End CustomFields.

Module Customer.
(** Modelled from the spec: the [Customer] entity of @vendure/core,
    "identifier, email address, first/last name, an extensible field bag". *)
Record t : Type := {
  id : ID;
  emailAddress : string;
  firstName : string;
  lastName : string;
  customFields : CustomFields.t
}.

(** [customer.customFields.stripeCustomerId = v] *)
Definition set_stripeCustomerId (c : t) (v : option string) : t :=
  {| id := id c;
     emailAddress := emailAddress c;
     firstName := firstName c;
     lastName := lastName c;
     customFields := {| CustomFields.stripeCustomerId := v |} |}.
End Customer.

Module Order.
(** Modelled from the spec: the [Order] entity of @vendure/core, "identifier,
    code, currency code, total-with-tax amount (integer, stored in minor
    units scaled by a fixed multiplier), related Customer (optional, loaded
    on demand)". *)
Record t : Type := {
  id : ID;
  code : string;
  currencyCode : CurrencyCode;
  totalWithTax : Z;
  customer : option Customer.t   (* relation: present only when loaded *)
}.
End Order.

Module Channel.
(** Modelled from the spec: the active sales channel and its token. *)
Record t : Type := { token : string }.
End Channel.

Module RequestContext.
(** Modelled from the spec: [RequestContext] of @vendure/core, "an execution
    context carrying the active user identity and the active sales channel
    token". *)
Record t : Type := {
  activeUserId : option ID;
  channel : Channel.t
}.
End RequestContext.

Module StripePluginOptions.
(** Modelled from the spec: [StripePluginOptions] of ./types, which section 6
    gives as [{ apiKey, webhookSigningSecret, storeCustomersInStripe }]. *)
Record t : Type := {
  apiKey : string;
  webhookSigningSecret : string;
  storeCustomersInStripe : bool
}.
End StripePluginOptions.

(* ------------------------------------------------------------------ *)
(** ** The persistent store behind [TransactionalConnection]

    The connection is a collaborator of the service; section 6 of the spec
    gives its contract: "fetch an Order by id with its Customer relation
    eagerly loaded; save a Customer record's mutated field (non-reloading
    save)".  The tables are lists of rows that are looked up by primary key,
    and both calls are taken to succeed. *)

Module Db.

(** A row of the order table; the customer relation is a foreign key. *)
Record OrderRow : Type := {
  row_id : ID;
  row_code : string;
  row_currencyCode : CurrencyCode;
  row_totalWithTax : Z;
  row_customerId : option ID
}.

Record t : Type := {
  orders : list OrderRow;
  customers : list Customer.t
}.

Definition find_customer (db : t) (k : ID) : option Customer.t :=
  find (fun c => ID_eqb (Customer.id c) k) (customers db).

Definition find_order_row (db : t) (k : ID) : option OrderRow :=
  find (fun r => ID_eqb (row_id r) k) (orders db).

(** Modelled from the spec: [getRepository(Order).findOne(id, { relations })],
    which fetches an order by id; the customer relation is joined only when
    it is asked for. *)
Definition findOne_Order (db : t) (k : ID) (relations : list string)
  : option Order.t :=
  match find_order_row db k with
  | None => None
  | Some r =>
      Some {| Order.id := row_id r;
              Order.code := row_code r;
              Order.currencyCode := row_currencyCode r;
              Order.totalWithTax := row_totalWithTax r;
              Order.customer :=
                if existsb (String.eqb "customer") relations
                then match row_customerId r with
                     | Some cid => find_customer db cid
                     | None => None
                     end
                else None |}
  end.

Fixpoint replace_customer (c : Customer.t) (l : list Customer.t)
  : list Customer.t :=
  match l with
  | [] => []
  | x :: r =>
      (if ID_eqb (Customer.id x) (Customer.id c) then c else x)
        :: replace_customer c r
  end.

(** Modelled from the spec: [getRepository(ctx, Customer).save(c, ...)], which
    saves a customer record: the row with the entity's primary key is
    updated, and one is inserted when there is none. *)
Definition save_Customer (db : t) (c : Customer.t) : t :=
  {| orders := orders db;
     customers :=
       if existsb (fun x => ID_eqb (Customer.id x) (Customer.id c)) (customers db)
       then replace_customer c (customers db)
       else (customers db ++ [c])%list |}.

End Db.

(* ------------------------------------------------------------------ *)
(** ** Objects of the Stripe API that the service builds or reads *)

Module Stripe.

Record Metadata : Type := {
  channelToken : string;
  orderId : ID;
  orderCode : string
}.

Record AutomaticPaymentMethods : Type := { enabled : bool }.

Record PaymentIntentCreateParams : Type := {
  amount : Z;
  currency : string;
  customer : option string;
  automatic_payment_methods : AutomaticPaymentMethods;
  metadata : Metadata
}.

Record PaymentIntent : Type := {
  pi_id : string;
  client_secret : option string     (* string | null *)
}.

Record RefundCreateParams : Type := {
  payment_intent : string;
  refund_amount : Z
}.

Record CustomerListParams : Type := { list_email : string }.

Record CustomerCreateParams : Type := {
  email : string;
  name : string
}.

Record Customer : Type := {
  id : string;
  customer_email : option string;
  customer_name : option string
}.

Record ApiList (A : Type) : Type := { data : list A }.
Arguments data {A} _.

End Stripe.

(** Every call the service makes to a collaborator, in program order. *)
Inductive Event : Type :=
| EvFindOneOrder (k : ID) (relations : list string)
| EvSaveCustomer (c : Customer.t) (reload : bool)
| EvCustomersList (p : Stripe.CustomerListParams)
| EvCustomersCreate (p : Stripe.CustomerCreateParams)
| EvPaymentIntentsCreate (p : Stripe.PaymentIntentCreateParams)
| EvRefundsCreate (p : Stripe.RefundCreateParams)
| EvConstructEvent (payload : list Byte.byte) (signature secret : string)
| EvLoggerWarn (message context : string)
| EvLoggerInfo (message context : string).

Definition is_gateway_call (e : Event) : bool :=
  match e with
  | EvCustomersList _ | EvCustomersCreate _ | EvPaymentIntentsCreate _
  | EvRefundsCreate _ | EvConstructEvent _ _ _ => true
  | _ => false
  end.

Definition is_customer_gateway_call (e : Event) : bool :=
  match e with
  | EvCustomersList _ | EvCustomersCreate _ => true
  | _ => false
  end.

Definition is_customers_create (e : Event) : bool :=
  match e with EvCustomersCreate _ => true | _ => false end.

Definition is_store_write (e : Event) : bool :=
  match e with EvSaveCustomer _ _ => true | _ => false end.

Definition is_store_access (e : Event) : bool :=
  match e with
  | EvFindOneOrder _ _ | EvSaveCustomer _ _ => true
  | _ => false
  end.

Definition is_logger_info (e : Event) : bool :=
  match e with EvLoggerInfo _ _ => true | _ => false end.

(** The payment-intent requests found in a log. *)
Fixpoint payment_intent_requests (l : list Event)
  : list Stripe.PaymentIntentCreateParams :=
  match l with
  | [] => []
  | EvPaymentIntentsCreate p :: r => p :: payment_intent_requests r
  | _ :: r => payment_intent_requests r
  end.

(* ------------------------------------------------------------------ *)
(** ** The effect monad *)

Section Effects.

(** Remote state of the gateway and the opaque objects it hands back. *)
Variables (G Refund StripeEvent Exn : Type).

Inductive Completion (A : Type) : Type :=
| Return (a : A)
| Throw (e : Exn).
Arguments Return {A} a.
Arguments Throw {A} e.

Record World : Type := {
  db : Db.t;
  gateway : G
}.

Definition M (A : Type) : Type := World -> Completion A * World * list Event.

Definition ret {A} (a : A) : M A := fun w => (Return a, w, []).

Definition bind {A B} (m : M A) (f : A -> M B) : M B :=
  fun w =>
    match m w with
    | (Return a, w1, l1) =>
        let '(r, w2, l2) := f a w1 in (r, w2, (l1 ++ l2)%list)
    | (Throw e, w1, l1) => (Throw e, w1, l1)
    end.

(** [try { m } catch (e) { h e }] *)
Definition try_catch {A} (m : M A) (h : Exn -> M A) : M A :=
  fun w =>
    match m w with
    | (Return a, w1, l1) => (Return a, w1, l1)
    | (Throw e, w1, l1) =>
        let '(r, w2, l2) := h e w1 in (r, w2, (l1 ++ l2)%list)
    end.

Definition emit (e : Event) : M unit := fun w => (Return tt, w, [e]).

(** A request to the remote gateway: it answers or throws, and moves on. *)
Definition request {A} (e : Event) (f : G -> Completion A * G) : M A :=
  fun w =>
    let '(r, g) := f (gateway w) in
    (r, {| db := db w; gateway := g |}, [e]).

Definition result_of {A} (x : Completion A * World * list Event) : Completion A :=
  fst (fst x).
Definition world_of {A} (x : Completion A * World * list Event) : World :=
  snd (fst x).
Definition events_of {A} (x : Completion A * World * list Event) : list Event :=
  snd x.

Notation "x <- m ;; k" := (bind m (fun x => k))
  (at level 61, m at next level, right associativity).
Notation "m ;;; k" := (bind m (fun _ => k))
  (at level 61, right associativity).

(** The Stripe client ([this.stripe]). *)
Record StripeClient : Type := {
  paymentIntents_create :
    Stripe.PaymentIntentCreateParams -> G -> Completion Stripe.PaymentIntent * G;
  refunds_create :
    Stripe.RefundCreateParams -> G -> Completion Refund * G;
  webhooks_constructEvent :
    list Byte.byte -> string -> string -> Completion StripeEvent;
  customers_list :
    Stripe.CustomerListParams -> G ->
    Completion (Stripe.ApiList Stripe.Customer) * G;
  customers_create :
    Stripe.CustomerCreateParams -> G -> Completion Stripe.Customer * G
}.

Record StripeService : Type := {
  options : StripePluginOptions.t;
  stripe : StripeClient
}.

(** [loggerCtx] of ./constants and the runtime's number formatter. *)
Variable loggerCtx : string.
Variable NumberFormat : Intl.NumberFormat.

Variable this : StripeService.

(** *** Collaborator calls *)

Definition Repository_Order_findOne (k : ID) (relations : list string)
  : M (option Order.t) :=
  fun w => (Return (Db.findOne_Order (db w) k relations), w,
            [EvFindOneOrder k relations]).

Definition Repository_Customer_save (c : Customer.t) (reload : bool) : M unit :=
  fun w => (Return tt,
            {| db := Db.save_Customer (db w) c; gateway := gateway w |},
            [EvSaveCustomer c reload]).

Definition Logger_warn (message context : string) : M unit :=
  emit (EvLoggerWarn message context).

Definition Logger_info (message context : string) : M unit :=
  emit (EvLoggerInfo message context).

(** *** The service *)

Definition currencyHasFractionPart (currencyCode : CurrencyCode) : bool :=
  let parts :=
    NumberFormat {| Intl.style := "currency";
                    Intl.currency := currencyCode;
                    Intl.currencyDisplay := "symbol" |} (12345 # 100)%Q in
  let hasFractionPart :=
    negb (negb (match find (fun p => String.eqb (Intl.type p) "fraction") parts with
                | Some _ => true
                | None => false
                end)) in
  hasFractionPart.

Definition getStripeCustomerId (ctx : RequestContext.t) (activeOrder : Order.t)
  : M (option string) :=
  order <- Repository_Order_findOne (Order.id activeOrder) ["customer"] ;;
  match order with
  | None => ret None
  | Some order =>
      match Order.customer order with
      | None => ret None
      | Some customer =>
          if truthy_opt_string
               (CustomFields.stripeCustomerId (Customer.customFields customer))
          then ret (CustomFields.stripeCustomerId (Customer.customFields customer))
          else
            stripeCustomers <-
              request
                (EvCustomersList
                   {| Stripe.list_email := Customer.emailAddress customer |})
                (customers_list (stripe this)
                   {| Stripe.list_email := Customer.emailAddress customer |}) ;;
            stripeCustomerId <-
              match Stripe.data stripeCustomers with
              | first :: _ => ret (Stripe.id first)
              | [] =>
                  let params :=
                    {| Stripe.email := Customer.emailAddress customer;
                       Stripe.name :=
                         Customer.firstName customer ++ " "
                           ++ Customer.lastName customer |} in
                  newStripeCustomer <-
                    request (EvCustomersCreate params)
                            (customers_create (stripe this) params) ;;
                  Logger_info
                    ("Created Stripe Customer record for customerId "
                       ++ ID_toString (Customer.id customer))
                    loggerCtx ;;;
                  ret (Stripe.id newStripeCustomer)
              end ;;
            Repository_Customer_save
              (Customer.set_stripeCustomerId customer (Some stripeCustomerId))
              false ;;;
            ret (Some stripeCustomerId)
      end
  end.

Definition createPaymentIntent (ctx : RequestContext.t) (order : Order.t)
  : M (option string) :=
  customerId <-
    (if (StripePluginOptions.storeCustomersInStripe (options this)
         && truthy_opt_ID (RequestContext.activeUserId ctx))%bool
     then getStripeCustomerId ctx order
     else ret None) ;;
  let amountInMinorUnits :=
    if currencyHasFractionPart (Order.currencyCode order)
    then Order.totalWithTax order
    else Math_round (inject_Z (Order.totalWithTax order) / 100)%Q in
  let params :=
    {| Stripe.amount := amountInMinorUnits;
       Stripe.currency := String_toLowerCase (Order.currencyCode order);
       Stripe.customer := customerId;
       Stripe.automatic_payment_methods := {| Stripe.enabled := true |};
       Stripe.metadata :=
         {| Stripe.channelToken :=
              Channel.token (RequestContext.channel ctx);
            Stripe.orderId := Order.id order;
            Stripe.orderCode := Order.code order |} |} in
  intent <-
    request (EvPaymentIntentsCreate params)
            (paymentIntents_create (stripe this) params) ;;
  let client_secret := Stripe.client_secret intent in
  (if negb (truthy_opt_string client_secret)
   then Logger_warn
          ("Payment intent creation for order " ++ Order.code order
             ++ " did not return client secret")
          loggerCtx
   else ret tt) ;;;
  ret client_secret.

Definition createRefund (paymentIntentId : string) (amount : Z)
  : M (Refund + Exn) :=
  let params :=
    {| Stripe.payment_intent := paymentIntentId;
       Stripe.refund_amount := amount |} in
  try_catch
    (refund <- request (EvRefundsCreate params)
                       (refunds_create (stripe this) params) ;;
     ret (inl refund))
    (fun e => ret (inr e)).

Definition constructEventFromPayload (payload : list Byte.byte) (signature : string)
  : M StripeEvent :=
  fun w =>
    (webhooks_constructEvent (stripe this) payload signature
       (StripePluginOptions.webhookSigningSecret (options this)),
     w,
     [EvConstructEvent payload signature
        (StripePluginOptions.webhookSigningSecret (options this))]).

End Effects.

Arguments Return {Exn A} a.
Arguments Throw {Exn A} e.
Arguments db {G} w.
Arguments gateway {G} w.
Arguments Build_World {G} db gateway.
Arguments ret {G Exn A} a w.
Arguments bind {G Exn A B} m f w.
Arguments try_catch {G Exn A} m h w.
Arguments emit {G Exn} e w.
Arguments request {G Exn A} e f w.
Arguments result_of {G Exn A} x.
Arguments world_of {G Exn A} x.
Arguments events_of {G Exn A} x.
Arguments options {G Refund StripeEvent Exn} s.
Arguments stripe {G Refund StripeEvent Exn} s.
Arguments paymentIntents_create {G Refund StripeEvent Exn} s p g.
Arguments refunds_create {G Refund StripeEvent Exn} s p g.
Arguments webhooks_constructEvent {G Refund StripeEvent Exn} s payload signature secret.
Arguments customers_list {G Refund StripeEvent Exn} s p g.
Arguments customers_create {G Refund StripeEvent Exn} s p g.
Arguments Repository_Order_findOne {G Exn} k relations w.
Arguments Repository_Customer_save {G Exn} c reload w.
Arguments Logger_warn {G Exn} message context w.
Arguments Logger_info {G Exn} message context w.
Arguments getStripeCustomerId {G Refund StripeEvent Exn} loggerCtx this ctx activeOrder w.
Arguments createPaymentIntent {G Refund StripeEvent Exn} loggerCtx NumberFormat this ctx order w.
Arguments createRefund {G Refund StripeEvent Exn} this paymentIntentId amount w.
Arguments constructEventFromPayload {G Refund StripeEvent Exn} this payload signature w.

(* ------------------------------------------------------------------ *)
(** ** Calls to the service, for statements about every operation *)

Section Calls.

Context {G Refund StripeEvent Exn : Type}.
Variable loggerCtx : string.
Variable NumberFormat : Intl.NumberFormat.
Variable this : StripeService G Refund StripeEvent Exn.

Inductive Call : Type :=
| CallCreatePaymentIntent (ctx : RequestContext.t) (order : Order.t)
| CallCreateRefund (paymentIntentId : string) (amount : Z)
| CallConstructEventFromPayload (payload : list Byte.byte) (signature : string)
| CallGetStripeCustomerId (ctx : RequestContext.t) (activeOrder : Order.t).

(** The world a call leaves behind, whether it returns or throws. *)
Definition world_after (c : Call) (w : World G) : World G :=
  match c with
  | CallCreatePaymentIntent ctx order =>
      world_of (createPaymentIntent loggerCtx NumberFormat this ctx order w)
  | CallCreateRefund paymentIntentId amount =>
      world_of (createRefund this paymentIntentId amount w)
  | CallConstructEventFromPayload payload signature =>
      world_of (constructEventFromPayload this payload signature w)
  | CallGetStripeCustomerId ctx activeOrder =>
      world_of (getStripeCustomerId loggerCtx this ctx activeOrder w)
  end.

Fixpoint world_after_all (cs : list Call) (w : World G) : World G :=
  match cs with
  | [] => w
  | c :: r => world_after_all r (world_after c w)
  end.

(** The request object that [createPaymentIntent] builds for a resolved
    customer id. *)
Definition paymentIntentParams (ctx : RequestContext.t) (order : Order.t)
           (customerId : option string) : Stripe.PaymentIntentCreateParams :=
  {| Stripe.amount :=
       if currencyHasFractionPart NumberFormat (Order.currencyCode order)
       then Order.totalWithTax order
       else Math_round (inject_Z (Order.totalWithTax order) / 100)%Q;
     Stripe.currency := String_toLowerCase (Order.currencyCode order);
     Stripe.customer := customerId;
     Stripe.automatic_payment_methods := {| Stripe.enabled := true |};
     Stripe.metadata :=
       {| Stripe.channelToken := Channel.token (RequestContext.channel ctx);
          Stripe.orderId := Order.id order;
          Stripe.orderCode := Order.code order |} |}.

(** The first statement of [createPaymentIntent]: the optional customer
    resolution. *)
Definition resolveCustomerId (ctx : RequestContext.t) (order : Order.t)
  : M G Exn (option string) :=
  if (StripePluginOptions.storeCustomersInStripe (options this)
      && truthy_opt_ID (RequestContext.activeUserId ctx))%bool
  then getStripeCustomerId loggerCtx this ctx order
  else ret None.

(** The warning logged when the gateway hands back no client secret. *)
Definition warnMessage (order : Order.t) : string :=
  "Payment intent creation for order " ++ Order.code order
    ++ " did not return client secret".

End Calls.

(* ------------------------------------------------------------------ *)
(** ** A concrete runtime, gateway and store for the examples *)

Module Demo.

(** ISO 4217 currencies without a minor unit. *)
Definition zero_decimal : list string :=
  ["BIF"; "CLP"; "DJF"; "GNF"; "ISK"; "JPY"; "KMF"; "KRW"; "PYG"; "RWF";
   "UGX"; "VND"; "VUV"; "XAF"; "XOF"; "XPF"].

Definition digits_of (z : Z) : string := NilZero.string_of_int (Z.to_int z).

(** A formatter that renders currency amounts the way en-US does: symbol,
    integer part and, for currencies with a minor unit, a two-digit
    fraction. *)
Definition NumberFormat : Intl.NumberFormat :=
  fun o x =>
    let symbol := {| Intl.type := "currency"; Intl.value := Intl.currency o |} in
    if existsb (String.eqb (Intl.currency o)) zero_decimal
    then [symbol;
          {| Intl.type := "integer"; Intl.value := digits_of (Math_round x) |}]
    else
      let cents := Math_round (x * 100)%Q in
      [symbol;
       {| Intl.type := "integer"; Intl.value := digits_of (cents / 100) |};
       {| Intl.type := "decimal"; Intl.value := "." |};
       {| Intl.type := "fraction";
          Intl.value :=
            (if (cents mod 100) <? 10 then "0" else "")
              ++ digits_of (cents mod 100) |}].

Record Refund : Type := {
  refund_id : string;
  refund_payment_intent : string;
  refunded : Z
}.

(** The remote side: the customers registered at the gateway. *)
Definition Remote : Type := list Stripe.Customer.

Definition has_email (e : string) (c : Stripe.Customer) : bool :=
  match Stripe.customer_email c with
  | Some x => String.eqb x e
  | None => false
  end.

Definition client (secret_for : string -> option string)
  : StripeClient Remote Refund string string :=
  {| paymentIntents_create := fun p g =>
       if Stripe.amount p <=? 0
       then (Throw "amount_too_small", g)
       else (Return
               {| Stripe.pi_id := "pi_" ++ Stripe.orderCode (Stripe.metadata p);
                  Stripe.client_secret :=
                    secret_for (Stripe.orderCode (Stripe.metadata p)) |}, g);
     refunds_create := fun p g =>
       if Stripe.refund_amount p <=? 0
       then (Throw "invalid_refund_amount", g)
       else (Return {| refund_id := "re_1";
                       refund_payment_intent := Stripe.payment_intent p;
                       refunded := Stripe.refund_amount p |}, g);
     webhooks_constructEvent := fun payload signature secret =>
       if String.eqb signature ("sig:" ++ secret)
       then Return (string_of_list_byte payload)
       else Throw "signature_verification_failed";
     customers_list := fun p g =>
       (Return {| Stripe.data := filter (has_email (Stripe.list_email p)) g |}, g);
     customers_create := fun p g =>
       let c := {| Stripe.id := "cus_" ++ Stripe.email p;
                   Stripe.customer_email := Some (Stripe.email p);
                   Stripe.customer_name := Some (Stripe.name p) |} in
       (Return c, (g ++ [c])%list) |}.

Definition service (sync : bool) (secret_for : string -> option string)
  : StripeService Remote Refund string string :=
  {| options := {| StripePluginOptions.apiKey := "sk_test";
                   StripePluginOptions.webhookSigningSecret := "whsec_1";
                   StripePluginOptions.storeCustomersInStripe := sync |};
     stripe := client secret_for |}.

Definition secret_of (code : string) : option string :=
  Some ("pi_" ++ code ++ "_secret").

Definition no_secret (code : string) : option string := None.

Definition loggerCtx : string := "StripePlugin".

Definition alice : Customer.t :=
  {| Customer.id := IdNum 1;
     Customer.emailAddress := "alice@example.com";
     Customer.firstName := "Alice";
     Customer.lastName := "Liddell";
     Customer.customFields := {| CustomFields.stripeCustomerId := None |} |}.

Definition bob : Customer.t :=
  {| Customer.id := IdNum 2;
     Customer.emailAddress := "bob@example.com";
     Customer.firstName := "Bob";
     Customer.lastName := "Dodgson";
     Customer.customFields :=
       {| CustomFields.stripeCustomerId := Some "cus_bob" |} |}.

Definition row (k : Z) (code cur : string) (total : Z) (cust : option ID)
  : Db.OrderRow :=
  {| Db.row_id := IdNum k; Db.row_code := code; Db.row_currencyCode := cur;
     Db.row_totalWithTax := total; Db.row_customerId := cust |}.

Definition store : Db.t :=
  {| Db.orders :=
       [row 10 "ORD10" "USD" 1999 (Some (IdNum 1));
        row 11 "ORD11" "JPY" 100000 (Some (IdNum 2));
        row 12 "ORD12" "JPY" 150 None];
     Db.customers := [alice; bob] |}.

Definition order (k : Z) (code cur : string) (total : Z) : Order.t :=
  {| Order.id := IdNum k; Order.code := code; Order.currencyCode := cur;
     Order.totalWithTax := total; Order.customer := None |}.

Definition usd_order : Order.t := order 10 "ORD10" "USD" 1999.
Definition jpy_order : Order.t := order 11 "ORD11" "JPY" 100000.
Definition half_order : Order.t := order 12 "ORD12" "JPY" 150.
Definition lost_order : Order.t := order 13 "ORD13" "USD" 500.

Definition ctx (user : option ID) : RequestContext.t :=
  {| RequestContext.activeUserId := user;
     RequestContext.channel := {| Channel.token := "default-channel" |} |}.

Definition alice_remote : Stripe.Customer :=
  {| Stripe.id := "cus_A1";
     Stripe.customer_email := Some "alice@example.com";
     Stripe.customer_name := Some "Alice Liddell" |}.

Definition world (remote : Remote) : World Remote :=
  {| db := store; gateway := remote |}.

Definition user : RequestContext.t := ctx (Some (IdNum 7)).
Definition anonymous : RequestContext.t := ctx None.
Definition syncing : StripeService Remote Refund string string :=
  service true secret_of.
Definition plain : StripeService Remote Refund string string :=
  service false secret_of.

(** A gateway whose customer calls fail: the creation always, the listing on
    demand. *)
Definition broken_client (list_fails : bool)
  : StripeClient Remote Refund string string :=
  {| paymentIntents_create := paymentIntents_create (client secret_of);
     refunds_create := refunds_create (client secret_of);
     webhooks_constructEvent := webhooks_constructEvent (client secret_of);
     customers_list := fun p g =>
       if list_fails
       then (Throw "api_connection_error", g)
       else customers_list (client secret_of) p g;
     customers_create := fun p g => (Throw "api_connection_error", g) |}.

Definition broken (list_fails : bool)
  : StripeService Remote Refund string string :=
  {| options := options syncing; stripe := broken_client list_fails |}.

(** An in-memory order for Alice with nothing to pay, which the example
    gateway refuses. *)
Definition free_order : Order.t := order 10 "ORD10" "USD" 0.

End Demo.

(* ------------------------------------------------------------------ *)
(** ** Calls that overlap

    The methods are [async]: a call gives way at each [await], and the steps
    of other calls may run before it resumes.  Here a call is cut at its
    awaits.  One step is one awaited collaborator call taking effect,
    together with the synchronous code that follows it up to the next
    [await]; steps of different calls interleave in any order. *)

Section Steps.

Context {G Refund StripeEvent Exn : Type}.
Variable loggerCtx : string.
Variable NumberFormat : Intl.NumberFormat.
Variable this : StripeService G Refund StripeEvent Exn.

(** Where a call of [getStripeCustomerId] stands: the awaited call that is
    pending, and the local variables that are live across it. *)
Inductive Stage : Type :=
| AtLookup (ctx : RequestContext.t) (activeOrder : Order.t)
    (* awaiting [findOne], line 98 *)
| AtList (customer : Customer.t)
    (* awaiting [customers.list], line 115 *)
| AtCreate (customer : Customer.t)
    (* awaiting [customers.create], line 119 *)
| AtSave (customer : Customer.t) (stripeCustomerId : string)
    (* awaiting [save], line 130 *)
| Resolved (r : Completion Exn (option string)).

Definition step_stage (s : Stage) (w : World G)
  : Stage * World G * list Event :=
  match s with
  | AtLookup ctx activeOrder =>
      (match Db.findOne_Order (db w) (Order.id activeOrder) ["customer"] with
       | None => Resolved (Return None)
       | Some order =>
           match Order.customer order with
           | None => Resolved (Return None)
           | Some customer =>
               if truthy_opt_string
                    (CustomFields.stripeCustomerId (Customer.customFields customer))
               then Resolved
                      (Return (CustomFields.stripeCustomerId
                                 (Customer.customFields customer)))
               else AtList customer
           end
       end,
       w,
       [EvFindOneOrder (Order.id activeOrder) ["customer"]])
  | AtList customer =>
      let params := {| Stripe.list_email := Customer.emailAddress customer |} in
      let '(r, g) := customers_list (stripe this) params (gateway w) in
      (match r with
       | Throw e => Resolved (Throw e)
       | Return stripeCustomers =>
           match Stripe.data stripeCustomers with
           | first :: _ => AtSave customer (Stripe.id first)
           | [] => AtCreate customer
           end
       end,
       {| db := db w; gateway := g |},
       [EvCustomersList params])
  | AtCreate customer =>
      let params :=
        {| Stripe.email := Customer.emailAddress customer;
           Stripe.name :=
             Customer.firstName customer ++ " " ++ Customer.lastName customer |} in
      let '(r, g) := customers_create (stripe this) params (gateway w) in
      match r with
      | Throw e =>
          (Resolved (Throw e), {| db := db w; gateway := g |},
           [EvCustomersCreate params])
      | Return newStripeCustomer =>
          (AtSave customer (Stripe.id newStripeCustomer),
           {| db := db w; gateway := g |},
           [EvCustomersCreate params;
            EvLoggerInfo
              ("Created Stripe Customer record for customerId "
                 ++ ID_toString (Customer.id customer))
              loggerCtx])
      end
  | AtSave customer stripeCustomerId =>
      let saved :=
        Customer.set_stripeCustomerId customer (Some stripeCustomerId) in
      (Resolved (Return (Some stripeCustomerId)),
       {| db := Db.save_Customer (db w) saved; gateway := gateway w |},
       [EvSaveCustomer saved false])
  | Resolved r => (Resolved r, w, [])
  end.

Fixpoint run_stage (n : nat) (s : Stage) (w : World G)
  : Stage * World G * list Event :=
  match n with
  | O => (s, w, [])
  | S m =>
      let '(s1, w1, l1) := step_stage s w in
      let '(s2, w2, l2) := run_stage m s1 w1 in
      (s2, w2, (l1 ++ l2)%list)
  end.

(** A call of the service in flight.  What a call returns to its caller is
    not kept: the statements about overlapping calls are about the store and
    the log. *)
Inductive Task : Type :=
| Resolving (s : Stage)
    (* [getStripeCustomerId] *)
| Paying (ctx : RequestContext.t) (order : Order.t) (s : Stage)
    (* [createPaymentIntent], resolving its customer, lines 31-33 *)
| Requesting (ctx : RequestContext.t) (order : Order.t)
             (customerId : option string)
    (* [createPaymentIntent], awaiting [paymentIntents.create], line 47 *)
| Refunding (paymentIntentId : string) (amount : Z)
    (* [createRefund], awaiting [refunds.create], line 76 *)
| Verifying (payload : list Byte.byte) (signature : string)
    (* [constructEventFromPayload] *)
| Settled.

(** A call as it is made: nothing has happened yet. *)
Definition start (c : Call) : Task :=
  match c with
  | CallCreatePaymentIntent ctx order =>
      if (StripePluginOptions.storeCustomersInStripe (options this)
          && truthy_opt_ID (RequestContext.activeUserId ctx))%bool
      then Paying ctx order (AtLookup ctx order)
      else Requesting ctx order None
  | CallCreateRefund paymentIntentId amount => Refunding paymentIntentId amount
  | CallConstructEventFromPayload payload signature => Verifying payload signature
  | CallGetStripeCustomerId ctx activeOrder => Resolving (AtLookup ctx activeOrder)
  end.

Definition step_task (t : Task) (w : World G) : Task * World G * list Event :=
  match t with
  | Resolving s =>
      let '(s1, w1, l1) := step_stage s w in
      (match s1 with
       | Resolved _ => Settled
       | _ => Resolving s1
       end, w1, l1)
  | Paying ctx order s =>
      let '(s1, w1, l1) := step_stage s w in
      (match s1 with
       | Resolved (Return customerId) => Requesting ctx order customerId
       | Resolved (Throw _) => Settled
       | _ => Paying ctx order s1
       end, w1, l1)
  | Requesting ctx order customerId =>
      let params := paymentIntentParams NumberFormat ctx order customerId in
      let '(r, g) := paymentIntents_create (stripe this) params (gateway w) in
      (Settled, {| db := db w; gateway := g |},
       EvPaymentIntentsCreate params
         :: match r with
            | Return intent =>
                if truthy_opt_string (Stripe.client_secret intent)
                then []
                else [EvLoggerWarn (warnMessage order) loggerCtx]
            | Throw _ => []
            end)
  | Refunding paymentIntentId amount =>
      (Settled,
       world_of (createRefund this paymentIntentId amount w),
       events_of (createRefund this paymentIntentId amount w))
  | Verifying payload signature =>
      (Settled,
       world_of (constructEventFromPayload this payload signature w),
       events_of (constructEventFromPayload this payload signature w))
  | Settled => (Settled, w, [])
  end.

Fixpoint run_task (n : nat) (t : Task) (w : World G)
  : Task * World G * list Event :=
  match n with
  | O => (t, w, [])
  | S m =>
      let '(t1, w1, l1) := step_task t w in
      let '(t2, w2, l2) := run_task m t1 w1 in
      (t2, w2, (l1 ++ l2)%list)
  end.

(** The calls in flight, and one step of the [i]-th of them. *)
Fixpoint step_nth (i : nat) (pool : list Task) (w : World G)
  : list Task * World G * list Event :=
  match pool, i with
  | [], _ => ([], w, [])
  | t :: rest, O =>
      let '(t1, w1, l1) := step_task t w in (t1 :: rest, w1, l1)
  | t :: rest, S j =>
      let '(rest1, w1, l1) := step_nth j rest w in (t :: rest1, w1, l1)
  end.

(** A schedule names, step after step, the call that runs next. *)
Fixpoint run_schedule (schedule : list nat) (pool : list Task) (w : World G)
  : list Task * World G * list Event :=
  match schedule with
  | [] => (pool, w, [])
  | i :: later =>
      let '(pool1, w1, l1) := step_nth i pool w in
      let '(pool2, w2, l2) := run_schedule later pool1 w1 in
      (pool2, w2, (l1 ++ l2)%list)
  end.

(** The customer record that a call carries across an await, if any. *)
Definition stage_copy (s : Stage) : option Customer.t :=
  match s with
  | AtList customer | AtCreate customer | AtSave customer _ => Some customer
  | AtLookup _ _ | Resolved _ => None
  end.

Definition task_copy (t : Task) : option Customer.t :=
  match t with
  | Resolving s | Paying _ _ s => stage_copy s
  | _ => None
  end.

(** The call carries a copy of the customer with id [k], loaded earlier. *)
Definition holds_copy (k : ID) (t : Task) : bool :=
  match task_copy t with
  | Some customer => ID_eqb (Customer.id customer) k
  | None => false
  end.

End Steps.

Arguments AtLookup {Exn} ctx activeOrder.
Arguments AtList {Exn} customer.
Arguments AtCreate {Exn} customer.
Arguments AtSave {Exn} customer stripeCustomerId.
Arguments Resolved {Exn} r.
Arguments Resolving {Exn} s.
Arguments Paying {Exn} ctx order s.
Arguments Requesting {Exn} ctx order customerId.
Arguments Refunding {Exn} paymentIntentId amount.
Arguments Verifying {Exn} payload signature.
Arguments Settled {Exn}.
Arguments stage_copy {Exn} s.
Arguments task_copy {Exn} t.
Arguments holds_copy {Exn} k t.

(** The state, the world and the log of a run. *)
Definition state_in {S G : Type} (x : S * World G * list Event) : S :=
  fst (fst x).
Definition world_in {S G : Type} (x : S * World G * list Event) : World G :=
  snd (fst x).
Definition log_in {S G : Type} (x : S * World G * list Event) : list Event :=
  snd x.

(** The cached remote id of the customer with id [k], if the store holds
    that customer. *)
Definition stored_stripeCustomerId (d : Db.t) (k : ID) : option (option string) :=
  option_map (fun c => CustomFields.stripeCustomerId (Customer.customFields c))
             (Db.find_customer d k).

(* ------------------------------------------------------------------ *)
(** ** Two resolutions for the same customer *)

Module Race.

(** A gateway that numbers the customers it creates. *)
Definition client : StripeClient Demo.Remote Demo.Refund string string :=
  {| paymentIntents_create := paymentIntents_create (Demo.client Demo.secret_of);
     refunds_create := refunds_create (Demo.client Demo.secret_of);
     webhooks_constructEvent :=
       webhooks_constructEvent (Demo.client Demo.secret_of);
     customers_list := customers_list (Demo.client Demo.secret_of);
     customers_create := fun p g =>
       let c := {| Stripe.id := "cus_" ++ Demo.digits_of (Z.of_nat (length g));
                   Stripe.customer_email := Some (Stripe.email p);
                   Stripe.customer_name := Some (Stripe.name p) |} in
       (Return c, (g ++ [c])%list) |}.

Definition service : StripeService Demo.Remote Demo.Refund string string :=
  {| options := options Demo.syncing; stripe := client |}.

(** Two calls for Alice's order, made before either has done anything. *)
Definition pool : list (@Task string) :=
  [start service (CallGetStripeCustomerId Demo.user Demo.usd_order);
   start service (CallGetStripeCustomerId Demo.user Demo.usd_order)].

(** The first call looks Alice up and lists; then the second call runs from
    start to end. *)
Definition first_half : list nat := [0; 0; 1; 1; 1; 1]%nat.

(** The first call resumes: it creates and saves. *)
Definition second_half : list nat := [0; 0]%nat.

(** The run up to the end of the second call, and the run from there on. *)
Definition halfway : list (@Task string) * World Demo.Remote * list Event :=
  run_schedule Demo.loggerCtx Demo.NumberFormat service first_half pool
    (Demo.world []).

Definition at_last : list (@Task string) * World Demo.Remote * list Event :=
  run_schedule Demo.loggerCtx Demo.NumberFormat service second_half
    (state_in halfway) (world_in halfway).

End Race.

(* ------------------------------------------------------------------ *)
(** ** Further vocabulary for logs, stores and currency codes *)

Definition is_customers_list (e : Event) : bool :=
  match e with EvCustomersList _ => true | _ => false end.

Definition is_order_lookup (e : Event) : bool :=
  match e with EvFindOneOrder _ _ => true | _ => false end.

Definition is_logger_warn (e : Event) : bool :=
  match e with EvLoggerWarn _ _ => true | _ => false end.

(** An ASCII capital letter. *)
Definition is_ascii_upper (c : ascii) : bool :=
  let n := nat_of_ascii c in (Nat.leb 65 n && Nat.leb n 90)%bool.

Fixpoint has_ascii_upper (s : string) : bool :=
  match s with
  | EmptyString => false
  | String c r => (is_ascii_upper c || has_ascii_upper r)%bool
  end.

(** A customer record with the cached remote id blanked: what is left is
    everything the service only reads. *)
Definition without_stripeCustomerId (c : Customer.t) : Customer.t :=
  Customer.set_stripeCustomerId c None.

(* ------------------------------------------------------------------ *)
(** * Properties *)

(** ** Rounding *)

Lemma Math_round_hundredth (n : Z) :
  Math_round (inject_Z n / 100)%Q = (n + 50) / 100.
Proof.
  change (Math_round (inject_Z n / 100)%Q) with ((n * 1 * 2 + 1 * 100) / (100 * 2)).
  replace (n * 1 * 2 + 1 * 100) with ((n + 50) * 2) by lia.
  apply Z.div_mul_cancel_r; lia.
Qed.

Lemma Math_round_hundredth_nearest (n : Z) :
  let a := Math_round (inject_Z n / 100)%Q in
  100 * a - 50 <= n < 100 * a + 50.
Proof.
  cbv zeta. rewrite Math_round_hundredth.
  pose proof (Z.div_mod (n + 50) 100 ltac:(lia)) as E.
  pose proof (Z.mod_pos_bound (n + 50) 100 ltac:(lia)) as B.
  lia.
Qed.

Lemma Math_round_hundredth_half (n : Z) :
  n mod 100 = 50 ->
  Math_round (inject_Z n / 100)%Q = n / 100 + 1.
Proof.
  intros H. rewrite Math_round_hundredth.
  pose proof (Z.div_mod n 100 ltac:(lia)) as E.
  symmetry. apply (Z.div_unique (n + 50) 100 (n / 100 + 1) 0); lia.
Qed.

(** ** Identifiers *)

Lemma ID_eqb_eq (a b : ID) : ID_eqb a b = true <-> a = b.
Proof.
  destruct a as [s|n], b as [t|m]; cbn; split; intros H;
    try discriminate; try (inversion H; subst).
  - apply String.eqb_eq in H. now subst.
  - apply String.eqb_refl.
  - apply Z.eqb_eq in H. now subst.
  - apply Z.eqb_refl.
Qed.

Lemma ID_eqb_refl (a : ID) : ID_eqb a a = true.
Proof. now apply ID_eqb_eq. Qed.

Lemma ID_eqb_neq (a b : ID) : ID_eqb a b = false <-> a <> b.
Proof.
  split.
  - intros H E. apply ID_eqb_eq in E. congruence.
  - intros H. destruct (ID_eqb a b) eqn:E; [|reflexivity].
    apply ID_eqb_eq in E. contradiction.
Qed.

(** ** The store *)

Lemma find_customer_id (d : Db.t) (k : ID) (c : Customer.t) :
  Db.find_customer d k = Some c -> Customer.id c = k.
Proof.
  unfold Db.find_customer. intros H.
  apply find_some in H. destruct H as [_ H]. now apply ID_eqb_eq.
Qed.

Lemma find_replace_customer_other (c : Customer.t) (k : ID) (l : list Customer.t) :
  Customer.id c <> k ->
  find (fun x => ID_eqb (Customer.id x) k) (Db.replace_customer c l)
  = find (fun x => ID_eqb (Customer.id x) k) l.
Proof.
  intros N. induction l as [|x r IH]; cbn; [reflexivity|].
  destruct (ID_eqb (Customer.id x) (Customer.id c)) eqn:E.
  - apply ID_eqb_eq in E.
    assert (ID_eqb (Customer.id c) k = false) as -> by now apply ID_eqb_neq.
    assert (ID_eqb (Customer.id x) k = false) as ->
        by (apply ID_eqb_neq; congruence).
    exact IH.
  - destruct (ID_eqb (Customer.id x) k); [reflexivity|exact IH].
Qed.

Lemma find_append_customer_other (c : Customer.t) (k : ID) (l : list Customer.t) :
  Customer.id c <> k ->
  find (fun x => ID_eqb (Customer.id x) k) (l ++ [c])%list
  = find (fun x => ID_eqb (Customer.id x) k) l.
Proof.
  intros N. induction l as [|x r IH]; cbn.
  - now apply ID_eqb_neq in N as ->.
  - destruct (ID_eqb (Customer.id x) k); [reflexivity|exact IH].
Qed.

(** Saving one customer leaves every other customer's row as it was. *)
Lemma find_customer_save_other (d : Db.t) (c : Customer.t) (k : ID) :
  Customer.id c <> k ->
  Db.find_customer (Db.save_Customer d c) k = Db.find_customer d k.
Proof.
  intros N. unfold Db.find_customer, Db.save_Customer. cbn.
  destruct (existsb _ _).
  - now apply find_replace_customer_other.
  - now apply find_append_customer_other.
Qed.

Lemma find_replace_customer_same (c : Customer.t) (l : list Customer.t) :
  existsb (fun x => ID_eqb (Customer.id x) (Customer.id c)) l = true ->
  find (fun x => ID_eqb (Customer.id x) (Customer.id c)) (Db.replace_customer c l)
  = Some c.
Proof.
  induction l as [|x r IH]; cbn; [discriminate|].
  destruct (ID_eqb (Customer.id x) (Customer.id c)) eqn:E; cbn.
  - now rewrite ID_eqb_refl.
  - rewrite E. exact IH.
Qed.

Lemma find_append_customer_same (c : Customer.t) (l : list Customer.t) :
  existsb (fun x => ID_eqb (Customer.id x) (Customer.id c)) l = false ->
  find (fun x => ID_eqb (Customer.id x) (Customer.id c)) (l ++ [c])%list
  = Some c.
Proof.
  induction l as [|x r IH]; cbn.
  - now rewrite ID_eqb_refl.
  - destruct (ID_eqb (Customer.id x) (Customer.id c)) eqn:E; cbn;
      [discriminate|exact IH].
Qed.

(** A saved customer is what a later lookup by its id finds. *)
Lemma find_customer_save_same (d : Db.t) (c : Customer.t) :
  Db.find_customer (Db.save_Customer d c) (Customer.id c) = Some c.
Proof.
  unfold Db.find_customer, Db.save_Customer. cbn.
  destruct (existsb _ _) eqn:E.
  - now apply find_replace_customer_same.
  - now apply find_append_customer_same.
Qed.

Lemma save_Customer_orders (d : Db.t) (c : Customer.t) :
  Db.orders (Db.save_Customer d c) = Db.orders d.
Proof. reflexivity. Qed.

(* ------------------------------------------------------------------ *)
(** ** The service *)

Section Service.

Context {G Refund StripeEvent Exn : Type}.
Variable loggerCtx : string.
Variable NumberFormat : Intl.NumberFormat.
Variable this : StripeService G Refund StripeEvent Exn.

Local Abbreviation getId := (getStripeCustomerId loggerCtx this).
Local Abbreviation createIntent := (createPaymentIntent loggerCtx NumberFormat this).
Local Abbreviation resolve := (resolveCustomerId loggerCtx this).
Local Abbreviation paramsFor := (paymentIntentParams NumberFormat).
Local Abbreviation cached c :=
  (CustomFields.stripeCustomerId (Customer.customFields c)).

Ltac reduce := cbn [fst snd db gateway app].

Ltac run :=
  unfold getStripeCustomerId, createPaymentIntent, createRefund,
    constructEventFromPayload, resolveCustomerId, Logger_info, Logger_warn,
    bind, try_catch, request, ret, emit, Repository_Order_findOne,
    Repository_Customer_save, result_of, world_of, events_of;
  reduce.

Ltac given H := rewrite H; reduce.

(** *** [createPaymentIntent], statement by statement *)

Lemma createPaymentIntent_resolve_throws ctx order w e w1 l1 :
  resolve ctx order w = (Throw e, w1, l1) ->
  createIntent ctx order w = (Throw e, w1, l1).
Proof.
  intros H. unfold resolveCustomerId in H.
  unfold createPaymentIntent, bind. now rewrite H.
Qed.

Lemma createPaymentIntent_intent_throws ctx order w cid w1 l1 e g :
  resolve ctx order w = (Return cid, w1, l1) ->
  paymentIntents_create (stripe this) (paramsFor ctx order cid) (gateway w1)
  = (Throw e, g) ->
  createIntent ctx order w
  = (Throw e, {| db := db w1; gateway := g |},
     (l1 ++ [EvPaymentIntentsCreate (paramsFor ctx order cid)])%list).
Proof.
  intros H P. unfold resolveCustomerId in H. unfold paymentIntentParams in P.
  unfold createPaymentIntent, bind. rewrite H.
  unfold request. now rewrite P.
Qed.

Lemma createPaymentIntent_intent_returns ctx order w cid w1 l1 intent g :
  resolve ctx order w = (Return cid, w1, l1) ->
  paymentIntents_create (stripe this) (paramsFor ctx order cid) (gateway w1)
  = (Return intent, g) ->
  createIntent ctx order w
  = (Return (Stripe.client_secret intent),
     {| db := db w1; gateway := g |},
     (l1 ++ EvPaymentIntentsCreate (paramsFor ctx order cid)
         :: (if truthy_opt_string (Stripe.client_secret intent)
             then []
             else [EvLoggerWarn (warnMessage order) loggerCtx]))%list).
Proof.
  intros H P. unfold resolveCustomerId in H. unfold paymentIntentParams in P.
  unfold createPaymentIntent, bind. rewrite H.
  unfold request. rewrite P. cbn [db gateway].
  destruct (truthy_opt_string (Stripe.client_secret intent)); reflexivity.
Qed.

(** Whatever happens, at most one payment-intent request goes out, and it
    is the one built from the order. *)
Lemma payment_intent_requests_app (l r : list Event) :
  payment_intent_requests (l ++ r)
  = (payment_intent_requests l ++ payment_intent_requests r)%list.
Proof.
  induction l as [|e l IH]; [reflexivity|].
  destruct e; cbn; rewrite IH; reflexivity.
Qed.

Lemma getStripeCustomerId_no_intent ctx order w :
  payment_intent_requests (events_of (getId ctx order w)) = [].
Proof.
  run.
  destruct (Db.findOne_Order _ _ _) as [o|]; [|reflexivity].
  destruct (Order.customer o) as [c|]; [|reflexivity].
  destruct (truthy_opt_string _); [reflexivity|].
  destruct (customers_list _ _ _) as [[lst|e] g1]; [|reflexivity].
  destruct (Stripe.data lst) as [|first rest]; [|reflexivity].
  destruct (customers_create _ _ _) as [[nc|e] g2]; reflexivity.
Qed.

Lemma resolveCustomerId_no_intent ctx order w :
  payment_intent_requests (events_of (resolve ctx order w)) = [].
Proof.
  unfold resolveCustomerId. destruct (_ && _)%bool.
  - apply getStripeCustomerId_no_intent.
  - reflexivity.
Qed.

Lemma createPaymentIntent_requests ctx order w :
  match resolve ctx order w with
  | (Throw _, _, _) =>
      payment_intent_requests (events_of (createIntent ctx order w)) = []
  | (Return cid, _, _) =>
      payment_intent_requests (events_of (createIntent ctx order w))
      = [paramsFor ctx order cid]
  end.
Proof.
  pose proof (resolveCustomerId_no_intent ctx order w) as N.
  destruct (resolve ctx order w) as [[[cid|e] w1] l1] eqn:R;
    unfold events_of in N; cbn [snd] in N.
  - destruct (paymentIntents_create (stripe this) (paramsFor ctx order cid)
                (gateway w1)) as [[intent|e] g] eqn:P.
    + rewrite (createPaymentIntent_intent_returns _ _ _ _ _ _ _ _ R P).
      unfold events_of; cbn [snd].
      rewrite payment_intent_requests_app, N.
      destruct (truthy_opt_string _); reflexivity.
    + rewrite (createPaymentIntent_intent_throws _ _ _ _ _ _ _ _ R P).
      unfold events_of; cbn [snd].
      rewrite payment_intent_requests_app, N. reflexivity.
  - rewrite (createPaymentIntent_resolve_throws _ _ _ _ _ _ R).
    exact N.
Qed.

Lemma createPaymentIntent_sent ctx order w p :
  In p (payment_intent_requests (events_of (createIntent ctx order w))) ->
  exists cid, p = paramsFor ctx order cid.
Proof.
  intros H. pose proof (createPaymentIntent_requests ctx order w) as R.
  destruct (resolve ctx order w) as [[[cid|e] w1] l1]; rewrite R in H.
  - destruct H as [<-|[]]. now exists cid.
  - destruct H.
Qed.

Lemma createPaymentIntent_sent_or_thrown ctx order w :
  (exists p,
      payment_intent_requests (events_of (createIntent ctx order w)) = [p])
  \/ (payment_intent_requests (events_of (createIntent ctx order w)) = []
      /\ exists e, result_of (createIntent ctx order w) = Throw e).
Proof.
  pose proof (createPaymentIntent_requests ctx order w) as R.
  destruct (resolve ctx order w) as [[[cid|e] w1] l1] eqn:E.
  - left. now exists (paramsFor ctx order cid).
  - right. split; [exact R|]. exists e.
    now rewrite (createPaymentIntent_resolve_throws _ _ _ _ _ _ E).
Qed.

(** *** The amount sent to the gateway *)

(** C1. Every payment-intent request that [createPaymentIntent] sends carries
    the stored [totalWithTax] unchanged when the order's currency has a
    fraction part, and [Math.round(totalWithTax / 100)], the integer nearest
    to a hundredth of the total, when it has none.  A request is sent unless
    the call has thrown beforehand.  With a formatter that renders JPY
    without and USD with a fraction, a stored 100000 JPY goes out as 1000
    and a stored 1999 USD as 1999. *)
Theorem createPaymentIntent_gateway_amount ctx order w :
  let sent := payment_intent_requests (events_of (createIntent ctx order w)) in
  ((exists p, sent = [p])
   \/ (sent = [] /\ exists e, result_of (createIntent ctx order w) = Throw e))
  /\ forall p, In p sent ->
       (currencyHasFractionPart NumberFormat (Order.currencyCode order) = true ->
        Stripe.amount p = Order.totalWithTax order)
       /\ (currencyHasFractionPart NumberFormat (Order.currencyCode order) = false ->
           Stripe.amount p
           = Math_round (inject_Z (Order.totalWithTax order) / 100)%Q
           /\ 100 * Stripe.amount p - 50 <= Order.totalWithTax order
              < 100 * Stripe.amount p + 50)
       /\ (Order.currencyCode order = "JPY" ->
           currencyHasFractionPart NumberFormat "JPY" = false ->
           Order.totalWithTax order = 100000 ->
           Stripe.amount p = 1000)
       /\ (Order.currencyCode order = "USD" ->
           currencyHasFractionPart NumberFormat "USD" = true ->
           Order.totalWithTax order = 1999 ->
           Stripe.amount p = 1999).
Proof.
  cbv zeta. split; [apply createPaymentIntent_sent_or_thrown|].
  intros p H. apply createPaymentIntent_sent in H. destruct H as [cid ->].
  unfold paymentIntentParams; cbn [Stripe.amount].
  repeat split.
  - now intros ->.
  - now rewrite H.
  - rewrite H. apply Math_round_hundredth_nearest.
  - rewrite H. apply Math_round_hundredth_nearest.
  - intros C F T. rewrite C, F, T. reflexivity.
  - intros C F T. rewrite C, F, T. reflexivity.
Qed.

(** C10. For a currency without a fraction part and a stored total that
    leaves remainder 50 modulo 100, the amount sent is the quotient rounded
    up, [totalWithTax / 100 + 1] with the flooring division: 150 goes out
    as 2. *)
Theorem createPaymentIntent_half_rounds_up ctx order w p :
  currencyHasFractionPart NumberFormat (Order.currencyCode order) = false ->
  Order.totalWithTax order mod 100 = 50 ->
  In p (payment_intent_requests (events_of (createIntent ctx order w))) ->
  Stripe.amount p = Order.totalWithTax order / 100 + 1
  /\ (Order.totalWithTax order = 150 -> Stripe.amount p = 2).
Proof.
  intros F R H. apply createPaymentIntent_sent in H. destruct H as [cid ->].
  unfold paymentIntentParams; cbn [Stripe.amount]. rewrite F.
  rewrite (Math_round_hundredth_half _ R).
  split; [reflexivity|]. intros ->. reflexivity.
Qed.

(** *** Resolving the remote customer id *)

Lemma findOne_Order_customer d k relations order c :
  Db.findOne_Order d k relations = Some order ->
  Order.customer order = Some c ->
  Db.find_customer d (Customer.id c) = Some c.
Proof.
  unfold Db.findOne_Order. intros H C.
  destruct (Db.find_order_row d k) as [r|]; [|discriminate].
  injection H as <-. cbn in C.
  destruct (existsb _ relations); [|discriminate].
  destruct (Db.row_customerId r) as [cid|]; [|discriminate].
  now rewrite (find_customer_id _ _ _ C).
Qed.

Lemma getStripeCustomerId_cached ctx activeOrder w order c :
  Db.findOne_Order (db w) (Order.id activeOrder) ["customer"] = Some order ->
  Order.customer order = Some c ->
  truthy_opt_string (cached c) = true ->
  getId ctx activeOrder w
  = (Return (cached c), w, [EvFindOneOrder (Order.id activeOrder) ["customer"]]).
Proof.
  intros F C T. run. rewrite F, C, T. reflexivity.
Qed.

(** The store after a resolution: untouched, or one save of the order's
    customer, who had no cached id. *)
Lemma getStripeCustomerId_db ctx activeOrder w :
  db (world_of (getId ctx activeOrder w)) = db w
  \/ exists order c sid,
      Db.findOne_Order (db w) (Order.id activeOrder) ["customer"] = Some order
      /\ Order.customer order = Some c
      /\ truthy_opt_string (cached c) = false
      /\ db (world_of (getId ctx activeOrder w))
         = Db.save_Customer (db w) (Customer.set_stripeCustomerId c (Some sid)).
Proof.
  run.
  destruct (Db.findOne_Order _ _ _) as [o|] eqn:F; [|now left].
  destruct (Order.customer o) as [c|] eqn:C; [|now left].
  destruct (truthy_opt_string _) eqn:T; [now left|].
  destruct (customers_list _ _ _) as [[lst|e] g1]; [|now left].
  destruct (Stripe.data lst) as [|first rest].
  - destruct (customers_create _ _ _) as [[nc|e] g2]; [|now left].
    right. exists o, c, (Stripe.id nc). repeat split; assumption.
  - right. exists o, c, (Stripe.id first). repeat split; assumption.
Qed.

Lemma getStripeCustomerId_keeps ctx activeOrder w k c :
  Db.find_customer (db w) k = Some c ->
  truthy_opt_string (cached c) = true ->
  Db.find_customer (db (world_of (getId ctx activeOrder w))) k = Some c.
Proof.
  intros F T.
  destruct (getStripeCustomerId_db ctx activeOrder w)
    as [->|(o & c' & sid & Fo & Co & Tc & ->)]; [exact F|].
  rewrite find_customer_save_other; [exact F|].
  cbn [Customer.set_stripeCustomerId Customer.id]. intros E.
  pose proof (findOne_Order_customer _ _ _ _ _ Fo Co) as F'.
  rewrite E, F in F'. injection F' as ->. congruence.
Qed.

Lemma createPaymentIntent_db ctx order w :
  db (world_of (createIntent ctx order w))
  = db (world_of (resolve ctx order w)).
Proof.
  destruct (resolve ctx order w) as [[[cid|e] w1] l1] eqn:R.
  - destruct (paymentIntents_create (stripe this) (paramsFor ctx order cid)
                (gateway w1)) as [[intent|e] g] eqn:P.
    + now rewrite (createPaymentIntent_intent_returns _ _ _ _ _ _ _ _ R P).
    + now rewrite (createPaymentIntent_intent_throws _ _ _ _ _ _ _ _ R P).
  - now rewrite (createPaymentIntent_resolve_throws _ _ _ _ _ _ R).
Qed.

Lemma createRefund_db paymentIntentId amount w :
  db (world_of (createRefund this paymentIntentId amount w)) = db w.
Proof.
  run. destruct (refunds_create _ _ _) as [[r|e] g]; reflexivity.
Qed.

Lemma world_after_keeps call w k c :
  Db.find_customer (db w) k = Some c ->
  truthy_opt_string (cached c) = true ->
  Db.find_customer (db (world_after loggerCtx NumberFormat this call w)) k
  = Some c.
Proof.
  intros F T. destruct call as [ctx order|pid amount|payload sig|ctx order];
    cbn [world_after].
  - rewrite createPaymentIntent_db. unfold resolveCustomerId.
    destruct (_ && _)%bool; [now apply getStripeCustomerId_keeps|exact F].
  - now rewrite createRefund_db.
  - exact F.
  - now apply getStripeCustomerId_keeps.
Qed.

Lemma world_after_all_keeps calls : forall w k c,
  Db.find_customer (db w) k = Some c ->
  truthy_opt_string (cached c) = true ->
  Db.find_customer (db (world_after_all loggerCtx NumberFormat this calls w)) k
  = Some c.
Proof.
  induction calls as [|call calls IH]; intros w k c F T; cbn.
  - exact F.
  - apply IH; [|exact T]. now apply world_after_keeps.
Qed.

Lemma truthy_string_iff (s : string) : truthy_string s = true <-> s <> "".
Proof.
  unfold truthy_string. rewrite negb_true_iff. apply String.eqb_neq.
Qed.

(** A cached id short-circuits the resolution, and calls that run one after
    another, each to its end, leave the stored record as it is. *)
Lemma cached_stripeCustomerId_one_by_one w k c sid :
  Db.find_customer (db w) k = Some c ->
  cached c = Some sid ->
  sid <> "" ->
  (forall ctx activeOrder order,
      Db.findOne_Order (db w) (Order.id activeOrder) ["customer"] = Some order ->
      Order.customer order = Some c ->
      getId ctx activeOrder w
      = (Return (Some sid), w,
         [EvFindOneOrder (Order.id activeOrder) ["customer"]])
      /\ forall e, In e (events_of (getId ctx activeOrder w)) ->
                   is_gateway_call e = false /\ is_store_write e = false)
  /\ (forall calls,
         Db.find_customer
           (db (world_after_all loggerCtx NumberFormat this calls w)) k
         = Some c).
Proof.
  intros F C N.
  assert (truthy_opt_string (cached c) = true) as T
      by (rewrite C; now apply truthy_string_iff).
  split.
  - intros ctx activeOrder order Fo Co.
    rewrite (getStripeCustomerId_cached _ _ _ _ _ Fo Co T), C.
    split; [reflexivity|]. intros e [<-|[]]. now split.
  - intros calls. now apply world_after_all_keeps.
Qed.

(** C4. For a customer without a cached id whose e-mail the gateway does
    not know, the resolution issues exactly one create-customer call, with
    the customer's e-mail address and the name "first last".  When that
    call returns, its id is the result, it is saved on the customer record
    with [reload: false] (a later lookup finds it there), and the
    informational message is logged. *)
Theorem getStripeCustomerId_creates ctx activeOrder w order c lst g1 :
  Db.findOne_Order (db w) (Order.id activeOrder) ["customer"] = Some order ->
  Order.customer order = Some c ->
  truthy_opt_string (cached c) = false ->
  customers_list (stripe this)
    {| Stripe.list_email := Customer.emailAddress c |} (gateway w)
  = (Return lst, g1) ->
  Stripe.data lst = [] ->
  let params :=
    {| Stripe.email := Customer.emailAddress c;
       Stripe.name := Customer.firstName c ++ " " ++ Customer.lastName c |} in
  let out := getId ctx activeOrder w in
  filter is_customers_create (events_of out) = [EvCustomersCreate params]
  /\ forall created g2,
      customers_create (stripe this) params g1 = (Return created, g2) ->
      let saved := Customer.set_stripeCustomerId c (Some (Stripe.id created)) in
      out = (Return (Some (Stripe.id created)),
             {| db := Db.save_Customer (db w) saved; gateway := g2 |},
             [EvFindOneOrder (Order.id activeOrder) ["customer"];
              EvCustomersList {| Stripe.list_email := Customer.emailAddress c |};
              EvCustomersCreate params;
              EvLoggerInfo
                ("Created Stripe Customer record for customerId "
                   ++ ID_toString (Customer.id c)) loggerCtx;
              EvSaveCustomer saved false])
      /\ Db.find_customer (db (world_of out)) (Customer.id c) = Some saved
      /\ cached saved = Some (Stripe.id created).
Proof.
  intros F C T L D params out. subst out params. split.
  - run. given F. given C. given T. given L. given D.
    destruct (customers_create _ _ _) as [[nc|e] g2]; reflexivity.
  - intros created g2 N. cbv zeta.
    assert (getId ctx activeOrder w
            = (Return (Some (Stripe.id created)),
               {| db := Db.save_Customer (db w)
                          (Customer.set_stripeCustomerId c
                             (Some (Stripe.id created)));
                  gateway := g2 |},
               [EvFindOneOrder (Order.id activeOrder) ["customer"];
                EvCustomersList
                  {| Stripe.list_email := Customer.emailAddress c |};
                EvCustomersCreate
                  {| Stripe.email := Customer.emailAddress c;
                     Stripe.name :=
                       Customer.firstName c ++ " " ++ Customer.lastName c |};
                EvLoggerInfo
                  ("Created Stripe Customer record for customerId "
                     ++ ID_toString (Customer.id c)) loggerCtx;
                EvSaveCustomer
                  (Customer.set_stripeCustomerId c (Some (Stripe.id created)))
                  false])) as E
        by (run; given F; given C; given T; given L; given D; given N;
            reflexivity).
    rewrite E. repeat split.
    unfold world_of; cbn [fst snd db].
    exact (find_customer_save_same (db w)
             (Customer.set_stripeCustomerId c (Some (Stripe.id created)))).
Qed.

(** C5. For a customer without a cached id whose e-mail the gateway knows,
    the resolution returns the id of the first match, issues no
    create-customer call, logs no informational message, and saves that id
    on the customer record with [reload: false]. *)
Theorem getStripeCustomerId_reuses ctx activeOrder w order c lst g1 first rest :
  Db.findOne_Order (db w) (Order.id activeOrder) ["customer"] = Some order ->
  Order.customer order = Some c ->
  truthy_opt_string (cached c) = false ->
  customers_list (stripe this)
    {| Stripe.list_email := Customer.emailAddress c |} (gateway w)
  = (Return lst, g1) ->
  Stripe.data lst = first :: rest ->
  let saved := Customer.set_stripeCustomerId c (Some (Stripe.id first)) in
  let out := getId ctx activeOrder w in
  out = (Return (Some (Stripe.id first)),
         {| db := Db.save_Customer (db w) saved; gateway := g1 |},
         [EvFindOneOrder (Order.id activeOrder) ["customer"];
          EvCustomersList {| Stripe.list_email := Customer.emailAddress c |};
          EvSaveCustomer saved false])
  /\ filter is_customers_create (events_of out) = []
  /\ filter is_logger_info (events_of out) = []
  /\ Db.find_customer (db (world_of out)) (Customer.id c) = Some saved
  /\ cached saved = Some (Stripe.id first).
Proof.
  intros F C T L D saved out. subst out saved.
  assert (getId ctx activeOrder w
          = (Return (Some (Stripe.id first)),
             {| db := Db.save_Customer (db w)
                        (Customer.set_stripeCustomerId c (Some (Stripe.id first)));
                gateway := g1 |},
             [EvFindOneOrder (Order.id activeOrder) ["customer"];
              EvCustomersList
                {| Stripe.list_email := Customer.emailAddress c |};
              EvSaveCustomer
                (Customer.set_stripeCustomerId c (Some (Stripe.id first)))
                false])) as E
      by (run; given F; given C; given T; given L; given D; reflexivity).
  rewrite E. repeat split.
  unfold world_of; cbn [fst snd db].
  exact (find_customer_save_same (db w)
           (Customer.set_stripeCustomerId c (Some (Stripe.id first)))).
Qed.

(** *** Refunds and webhooks *)

(** C3. [createRefund] never throws: it issues one refund request and
    returns the gateway's refund object when the request succeeds, and the
    thrown error, as a value, when the request throws. *)
Theorem createRefund_returns_error_value paymentIntentId amount w :
  let params :=
    {| Stripe.payment_intent := paymentIntentId;
       Stripe.refund_amount := amount |} in
  let out := createRefund this paymentIntentId amount w in
  (exists v, result_of out = Return v)
  /\ match refunds_create (stripe this) params (gateway w) with
     | (Return refund, g) =>
         out = (Return (inl refund), {| db := db w; gateway := g |},
                [EvRefundsCreate params])
     | (Throw e, g) =>
         out = (Return (inr e), {| db := db w; gateway := g |},
                [EvRefundsCreate params])
     end.
Proof.
  cbv zeta. run.
  destruct (refunds_create _ _ _) as [[r|e] g]; split;
    solve [eexists; reflexivity | reflexivity].
Qed.

(** C8. [constructEventFromPayload] hands the payload and the signature to
    the gateway client's verification together with the configured webhook
    signing secret; it throws exactly when that verification throws, with
    the same error, returns exactly the event that the verification
    returns, and changes nothing. *)
Theorem constructEventFromPayload_verdict payload signature w :
  let secret := StripePluginOptions.webhookSigningSecret (options this) in
  let verdict :=
    webhooks_constructEvent (stripe this) payload signature secret in
  let out := constructEventFromPayload this payload signature w in
  (forall e, result_of out = Throw e <-> verdict = Throw e)
  /\ (forall ev, result_of out = Return ev <-> verdict = Return ev)
  /\ world_of out = w
  /\ events_of out = [EvConstructEvent payload signature secret].
Proof.
  cbv zeta. run. repeat split; intros H; exact H.
Qed.

(** *** [createPaymentIntent] and the customer resolution *)

(** [createPaymentIntent] is the optional resolution, then the request built
    from the order, then the check of the client secret. *)
Lemma createPaymentIntent_steps ctx order :
  createIntent ctx order
  = bind (resolve ctx order) (fun customerId =>
      bind (request (EvPaymentIntentsCreate (paramsFor ctx order customerId))
              (paymentIntents_create (stripe this)
                 (paramsFor ctx order customerId)))
        (fun intent =>
           bind (if negb (truthy_opt_string (Stripe.client_secret intent))
                 then Logger_warn (warnMessage order) loggerCtx
                 else ret tt)
             (fun _ => ret (Stripe.client_secret intent)))).
Proof. reflexivity. Qed.

Lemma resolveCustomerId_skipped ctx order w :
  (StripePluginOptions.storeCustomersInStripe (options this)
   && truthy_opt_ID (RequestContext.activeUserId ctx))%bool = false ->
  resolve ctx order w = (Return None, w, []).
Proof. intros H. unfold resolveCustomerId. now rewrite H. Qed.

(** Without the option or without a truthy user id, the call is the
    payment-intent request alone, followed at most by the warning. *)
Lemma createPaymentIntent_skipped ctx order w :
  (StripePluginOptions.storeCustomersInStripe (options this)
   && truthy_opt_ID (RequestContext.activeUserId ctx))%bool = false ->
  db (world_of (createIntent ctx order w)) = db w
  /\ exists tail,
      events_of (createIntent ctx order w)
      = EvPaymentIntentsCreate (paramsFor ctx order None) :: tail
      /\ (tail = [] \/ tail = [EvLoggerWarn (warnMessage order) loggerCtx]).
Proof.
  intros H. pose proof (resolveCustomerId_skipped ctx order w H) as R.
  destruct (paymentIntents_create (stripe this) (paramsFor ctx order None)
              (gateway w)) as [[intent|e] g] eqn:P.
  - rewrite (createPaymentIntent_intent_returns _ _ _ _ _ _ _ _ R P).
    split; [reflexivity|]. eexists. split; [reflexivity|].
    destruct (truthy_opt_string _); [now left|now right].
  - rewrite (createPaymentIntent_intent_throws _ _ _ _ _ _ _ _ R P).
    split; [reflexivity|]. eexists. split; [reflexivity|]. now left.
Qed.

(** C6. When [storeCustomersInStripe] is false or the context has no active
    user id, [createPaymentIntent] never enters the customer resolution: its
    log holds no store access (no order lookup, no customer save) and no
    customer call to the gateway, the store is unchanged, and the one
    payment-intent request it sends carries no customer id. *)
Theorem createPaymentIntent_without_customer ctx order w :
  StripePluginOptions.storeCustomersInStripe (options this) = false
  \/ RequestContext.activeUserId ctx = None ->
  let out := createIntent ctx order w in
  (forall e, In e (events_of out) ->
             is_store_access e = false /\ is_customer_gateway_call e = false)
  /\ db (world_of out) = db w
  /\ exists p,
      payment_intent_requests (events_of out) = [p]
      /\ Stripe.customer p = None.
Proof.
  intros H out. subst out.
  assert ((StripePluginOptions.storeCustomersInStripe (options this)
           && truthy_opt_ID (RequestContext.activeUserId ctx))%bool = false) as S.
  { destruct H as [->| ->]; [reflexivity|apply andb_false_r]. }
  destruct (createPaymentIntent_skipped ctx order w S) as (D & tail & E & T).
  split; [|split; [exact D|]].
  - intros e I. rewrite E in I.
    destruct I as [<-|I]; [now split|].
    destruct T as [->| ->]; [destruct I|].
    destruct I as [<-|[]]. now split.
  - exists (paramsFor ctx order None). split; [|reflexivity].
    rewrite E. destruct T as [->| ->]; reflexivity.
Qed.

(** C7. Once the payment-intent request has been answered: when the answer
    has no client secret, [createPaymentIntent] logs the warning and returns
    [undefined] without throwing; when it has one, that secret is
    returned. *)
Theorem createPaymentIntent_client_secret ctx order w cid w1 l1 intent g :
  resolve ctx order w = (Return cid, w1, l1) ->
  paymentIntents_create (stripe this) (paramsFor ctx order cid) (gateway w1)
  = (Return intent, g) ->
  let out := createIntent ctx order w in
  (Stripe.client_secret intent = None ->
   result_of out = Return None
   /\ events_of out
      = (l1 ++ [EvPaymentIntentsCreate (paramsFor ctx order cid);
                EvLoggerWarn (warnMessage order) loggerCtx])%list)
  /\ (forall secret,
         Stripe.client_secret intent = Some secret ->
         result_of out = Return (Some secret)).
Proof.
  intros R P out. subst out.
  rewrite (createPaymentIntent_intent_returns _ _ _ _ _ _ _ _ R P).
  split.
  - intros ->. split; reflexivity.
  - intros secret ->. reflexivity.
Qed.

(** C9. When the re-fetched order is absent or has no customer, the
    resolution returns [undefined] after the order lookup alone: nothing
    is thrown, no gateway call is made, nothing is written.  With the option
    on and an active user, [createPaymentIntent] then goes on to send its
    payment-intent request, without a customer id, and can only fail if
    that request itself throws. *)
Theorem getStripeCustomerId_absent ctx order w :
  Db.findOne_Order (db w) (Order.id order) ["customer"] = None
  \/ (exists found,
         Db.findOne_Order (db w) (Order.id order) ["customer"] = Some found
         /\ Order.customer found = None) ->
  getId ctx order w
  = (Return None, w, [EvFindOneOrder (Order.id order) ["customer"]])
  /\ (forall e, In e (events_of (getId ctx order w)) ->
                is_gateway_call e = false /\ is_store_write e = false)
  /\ (StripePluginOptions.storeCustomersInStripe (options this) = true ->
      truthy_opt_ID (RequestContext.activeUserId ctx) = true ->
      let out := createIntent ctx order w in
      let p := paramsFor ctx order None in
      Stripe.customer p = None
      /\ (exists tail,
             events_of out
             = EvFindOneOrder (Order.id order) ["customer"]
                 :: EvPaymentIntentsCreate p :: tail
             /\ (tail = [] \/ tail = [EvLoggerWarn (warnMessage order) loggerCtx]))
      /\ db (world_of out) = db w
      /\ (forall e, result_of out = Throw e ->
                    exists g, paymentIntents_create (stripe this) p (gateway w)
                              = (Throw e, g))).
Proof.
  intros H.
  assert (getId ctx order w
          = (Return None, w, [EvFindOneOrder (Order.id order) ["customer"]])) as E.
  { run. destruct H as [F|(found & F & C)]; given F; [reflexivity|].
    given C. reflexivity. }
  split; [exact E|].
  split; [rewrite E; intros e' [<-|[]]; now split|].
  intros S U out p. subst out p.
  assert (resolve ctx order w
          = (Return None, w, [EvFindOneOrder (Order.id order) ["customer"]])) as R
      by (unfold resolveCustomerId; now rewrite S, U).
  split; [reflexivity|].
  destruct (paymentIntents_create (stripe this) (paramsFor ctx order None)
              (gateway w)) as [[intent|e] g] eqn:P.
  - rewrite (createPaymentIntent_intent_returns _ _ _ _ _ _ _ _ R P).
    split; [|split; [reflexivity|intros e D; discriminate D]].
    eexists. split; [reflexivity|].
    destruct (truthy_opt_string _); [now left|now right].
  - rewrite (createPaymentIntent_intent_throws _ _ _ _ _ _ _ _ R P).
    split; [|split; [reflexivity|]].
    + eexists. split; [reflexivity|]. now left.
    + intros e' D. injection D as <-. now exists g.
Qed.

End Service.

(* ------------------------------------------------------------------ *)
(** ** The theorems at work on the example store *)

Module Examples.

Import Demo.

(** 100000 JPY goes out as 1000, 1999 USD as 1999. *)
Lemma createPaymentIntent_gateway_amount_witness :
  (exists p,
      payment_intent_requests
        (events_of (createPaymentIntent loggerCtx NumberFormat syncing user
                      jpy_order (world [])))
      = [p]
      /\ Stripe.amount p = 1000)
  /\ (exists p,
         payment_intent_requests
           (events_of (createPaymentIntent loggerCtx NumberFormat syncing user
                         usd_order (world [])))
         = [p]
         /\ Stripe.amount p = 1999).
Proof.
  split.
  - eexists. split; [reflexivity|].
    destruct (proj2 (createPaymentIntent_gateway_amount loggerCtx NumberFormat
                       syncing user jpy_order (world []))
                _ (or_introl eq_refl)) as (_ & _ & J & _).
    apply J; reflexivity.
  - eexists. split; [reflexivity|].
    destruct (proj2 (createPaymentIntent_gateway_amount loggerCtx NumberFormat
                       syncing user usd_order (world []))
                _ (or_introl eq_refl)) as (U & _ & _ & _).
    apply U; reflexivity.
Defined.

(** 150 JPY goes out as 2. *)
Lemma createPaymentIntent_half_rounds_up_witness :
  exists p,
    payment_intent_requests
      (events_of (createPaymentIntent loggerCtx NumberFormat syncing user
                    half_order (world [])))
    = [p]
    /\ Stripe.amount p = 2.
Proof.
  eexists. split; [reflexivity|].
  apply (createPaymentIntent_half_rounds_up loggerCtx NumberFormat syncing user
           half_order (world []) _ eq_refl eq_refl (or_introl eq_refl)).
  reflexivity.
Defined.

(** Alice is unknown to the gateway: she is created there. *)
Lemma getStripeCustomerId_creates_witness :
  let out := getStripeCustomerId loggerCtx syncing user usd_order (world []) in
  filter is_customers_create (events_of out)
  = [EvCustomersCreate {| Stripe.email := "alice@example.com";
                          Stripe.name := "Alice Liddell" |}]
  /\ result_of out = Return (Some "cus_alice@example.com")
  /\ In (EvLoggerInfo "Created Stripe Customer record for customerId 1"
           "StripePlugin") (events_of out)
  /\ Db.find_customer (db (world_of out)) (IdNum 1)
     = Some (Customer.set_stripeCustomerId alice (Some "cus_alice@example.com")).
Proof.
  cbv zeta.
  destruct (getStripeCustomerId_creates loggerCtx syncing user usd_order
              (world [])
              {| Order.id := IdNum 10; Order.code := "ORD10";
                 Order.currencyCode := "USD"; Order.totalWithTax := 1999;
                 Order.customer := Some alice |}
              alice {| Stripe.data := [] |} []
              eq_refl eq_refl eq_refl eq_refl eq_refl) as [once after].
  split; [exact once|].
  destruct (after _ _ eq_refl) as (E & _).
  rewrite E. repeat split.
  right. right. right. left. reflexivity.
Defined.

(** Alice is known to the gateway: her remote id is reused. *)
Lemma getStripeCustomerId_reuses_witness :
  let out :=
    getStripeCustomerId loggerCtx syncing user usd_order (world [alice_remote]) in
  result_of out = Return (Some "cus_A1")
  /\ filter is_customers_create (events_of out) = []
  /\ filter is_logger_info (events_of out) = []
  /\ In (EvSaveCustomer (Customer.set_stripeCustomerId alice (Some "cus_A1")) false)
        (events_of out).
Proof.
  cbv zeta.
  destruct (getStripeCustomerId_reuses loggerCtx syncing user usd_order
              (world [alice_remote])
              {| Order.id := IdNum 10; Order.code := "ORD10";
                 Order.currencyCode := "USD"; Order.totalWithTax := 1999;
                 Order.customer := Some alice |}
              alice {| Stripe.data := [alice_remote] |} [alice_remote]
              alice_remote []
              eq_refl eq_refl eq_refl eq_refl eq_refl)
    as (E & nocreate & noinfo & _).
  split; [rewrite E; reflexivity|].
  split; [exact nocreate|]. split; [exact noinfo|].
  rewrite E. right. right. left. reflexivity.
Defined.

(** A refund of 0 is refused by the example gateway: the error is returned. *)
Lemma createRefund_returns_error_value_witness :
  result_of (createRefund syncing "pi_ORD10" 0 (world []))
  = Return (inr "invalid_refund_amount")
  /\ result_of (createRefund syncing "pi_ORD10" 500 (world []))
     = Return (inl {| refund_id := "re_1";
                      refund_payment_intent := "pi_ORD10";
                      refunded := 500 |}).
Proof.
  split.
  - rewrite (proj2 (createRefund_returns_error_value syncing "pi_ORD10" 0 (world []))).
    reflexivity.
  - rewrite (proj2 (createRefund_returns_error_value syncing "pi_ORD10" 500 (world []))).
    reflexivity.
Defined.

(** A signature made with another secret is rejected, the right one passes. *)
Lemma constructEventFromPayload_verdict_witness :
  result_of (constructEventFromPayload syncing [] "sig:whsec_2" (world []))
  = Throw "signature_verification_failed"
  /\ result_of (constructEventFromPayload syncing [] "sig:whsec_1" (world []))
     = Return "".
Proof.
  split.
  - apply (proj1 (constructEventFromPayload_verdict syncing [] "sig:whsec_2"
                    (world []))).
    reflexivity.
  - apply (proj1 (proj2 (constructEventFromPayload_verdict syncing []
                           "sig:whsec_1" (world [])))).
    reflexivity.
Defined.

(** Without the option, and without a user, no customer is resolved. *)
Lemma createPaymentIntent_without_customer_witness :
  (exists p,
      payment_intent_requests
        (events_of (createPaymentIntent loggerCtx NumberFormat plain user
                      usd_order (world [])))
      = [p]
      /\ Stripe.customer p = None)
  /\ (exists p,
         payment_intent_requests
           (events_of (createPaymentIntent loggerCtx NumberFormat syncing
                         anonymous usd_order (world [])))
         = [p]
         /\ Stripe.customer p = None).
Proof.
  split.
  - exact (proj2 (proj2 (createPaymentIntent_without_customer loggerCtx
                           NumberFormat plain user usd_order (world [])
                           (or_introl eq_refl)))).
  - exact (proj2 (proj2 (createPaymentIntent_without_customer loggerCtx
                           NumberFormat syncing anonymous usd_order (world [])
                           (or_intror eq_refl)))).
Defined.

(** A gateway that hands back no client secret: a warning, and [undefined]. *)
Lemma createPaymentIntent_client_secret_witness :
  let out :=
    createPaymentIntent loggerCtx NumberFormat (service false no_secret)
      anonymous usd_order (world []) in
  result_of out = Return None
  /\ In (EvLoggerWarn
           "Payment intent creation for order ORD10 did not return client secret"
           "StripePlugin") (events_of out).
Proof.
  cbv zeta.
  destruct (createPaymentIntent_client_secret loggerCtx NumberFormat
              (service false no_secret) anonymous usd_order (world [])
              None (world []) []
              {| Stripe.pi_id := "pi_ORD10"; Stripe.client_secret := None |} []
              eq_refl eq_refl) as [absent _].
  destruct (absent eq_refl) as [R E].
  split; [exact R|]. rewrite E. right. left. reflexivity.
Defined.

(** An order that the store does not know. *)
Lemma getStripeCustomerId_absent_witness :
  getStripeCustomerId loggerCtx syncing user lost_order (world [])
  = (Return None, world [], [EvFindOneOrder (IdNum 13) ["customer"]])
  /\ exists p,
      payment_intent_requests
        (events_of (createPaymentIntent loggerCtx NumberFormat syncing user
                      lost_order (world [])))
      = [p]
      /\ Stripe.customer p = None.
Proof.
  destruct (getStripeCustomerId_absent loggerCtx NumberFormat syncing user
              lost_order (world []) (or_introl eq_refl)) as (E & _ & after).
  split; [exact E|].
  destruct (after eq_refl eq_refl) as (C & (tail & L & [-> | ->]) & _);
    (eexists; split; [|exact C]); rewrite L; reflexivity.
Defined.

End Examples.

(* ------------------------------------------------------------------ *)
(** * Further properties of the service *)

(** ** Lower-casing and the store, once more *)

Lemma ascii_toLowerCase_not_upper (c : ascii) :
  is_ascii_upper (ascii_toLowerCase c) = false.
Proof. destruct c as [[] [] [] [] [] [] [] []]; reflexivity. Qed.

Lemma String_toLowerCase_no_upper (s : string) :
  has_ascii_upper (String_toLowerCase s) = false.
Proof.
  induction s as [|c r IH]; [reflexivity|].
  cbn [String_toLowerCase has_ascii_upper].
  now rewrite ascii_toLowerCase_not_upper, IH.
Qed.

Lemma String_toLowerCase_length (s : string) :
  String.length (String_toLowerCase s) = String.length s.
Proof.
  induction s as [|c r IH]; [reflexivity|]. cbn. now rewrite IH.
Qed.

Lemma replace_customer_ids (c : Customer.t) (l : list Customer.t) :
  map Customer.id (Db.replace_customer c l) = map Customer.id l.
Proof.
  induction l as [|x r IH]; [reflexivity|]. cbn. rewrite IH.
  destruct (ID_eqb (Customer.id x) (Customer.id c)) eqn:E; [|reflexivity].
  apply ID_eqb_eq in E. now rewrite E.
Qed.

Lemma find_customer_existsb (d : Db.t) (k : ID) (c : Customer.t) :
  Db.find_customer d k = Some c ->
  existsb (fun x => ID_eqb (Customer.id x) (Customer.id c)) (Db.customers d) = true.
Proof.
  unfold Db.find_customer. intros H. apply find_some in H.
  apply existsb_exists. exists c. split; [tauto|apply ID_eqb_refl].
Qed.

Lemma find_customer_In (d : Db.t) (k : ID) (c : Customer.t) :
  Db.find_customer d k = Some c -> In c (Db.customers d).
Proof.
  unfold Db.find_customer. intros H. now apply find_some in H.
Qed.

(** Saving a new remote id on a customer that the store holds rewrites rows
    in place. *)
Lemma save_found_customers (d : Db.t) (c : Customer.t) (v : option string) :
  Db.find_customer d (Customer.id c) = Some c ->
  Db.customers (Db.save_Customer d (Customer.set_stripeCustomerId c v))
  = Db.replace_customer (Customer.set_stripeCustomerId c v) (Db.customers d).
Proof.
  intros F. unfold Db.save_Customer. cbn [Db.customers].
  change (Customer.id (Customer.set_stripeCustomerId c v)) with (Customer.id c).
  now rewrite (find_customer_existsb _ _ _ F).
Qed.

Lemma map_injective_on_NoDup {A B} (f : A -> B) (l : list A) (x y : A) :
  NoDup (map f l) -> In x l -> In y l -> f x = f y -> x = y.
Proof.
  induction l as [|a r IH]; cbn; [intros _ []|].
  intros N Hx Hy E. apply NoDup_cons_iff in N. destruct N as [Na Nr].
  destruct Hx as [<-|Hx], Hy as [<-|Hy].
  - reflexivity.
  - exfalso. apply Na. rewrite E. now apply in_map.
  - exfalso. apply Na. rewrite <- E. now apply in_map.
  - now apply IH.
Qed.

Lemma replace_customer_without (c : Customer.t) (v : option string)
      (l : list Customer.t) :
  (forall x, In x l -> Customer.id x = Customer.id c -> x = c) ->
  map without_stripeCustomerId
      (Db.replace_customer (Customer.set_stripeCustomerId c v) l)
  = map without_stripeCustomerId l.
Proof.
  induction l as [|x r IH]; intros U; [reflexivity|].
  cbn [Db.replace_customer map]. rewrite IH by (intros y I; apply U; now right).
  f_equal.
  change (Customer.id (Customer.set_stripeCustomerId c v)) with (Customer.id c).
  destruct (ID_eqb (Customer.id x) (Customer.id c)) eqn:E; [|reflexivity].
  apply ID_eqb_eq in E. rewrite (U x (or_introl eq_refl) E). reflexivity.
Qed.

(** A lookup of an order sees the order table and the one customer row that
    the order points to, nothing else. *)
Lemma findOne_Order_stable (d d' : Db.t) (k : ID) (relations : list string)
      (o : Order.t) (c : Customer.t) :
  Db.findOne_Order d k relations = Some o ->
  Order.customer o = Some c ->
  Db.orders d' = Db.orders d ->
  Db.find_customer d' (Customer.id c) = Some c ->
  Db.findOne_Order d' k relations = Some o.
Proof.
  unfold Db.findOne_Order, Db.find_order_row. intros F C O K. rewrite O.
  destruct (find _ (Db.orders d)) as [r|]; [|discriminate].
  injection F as <-. cbn in C. f_equal. f_equal.
  destruct (existsb _ relations); [|reflexivity].
  destruct (Db.row_customerId r) as [cid|]; [|discriminate].
  rewrite C. rewrite <- (find_customer_id _ _ _ C). exact K.
Qed.

(* ------------------------------------------------------------------ *)
(** ** Failure, composition and bounds *)

Section Coverage.

Context {G Refund StripeEvent Exn : Type}.
Variable loggerCtx : string.
Variable NumberFormat : Intl.NumberFormat.
Variable this : StripeService G Refund StripeEvent Exn.

Local Abbreviation getId := (getStripeCustomerId loggerCtx this).
Local Abbreviation createIntent := (createPaymentIntent loggerCtx NumberFormat this).
Local Abbreviation resolve := (resolveCustomerId loggerCtx this).
Local Abbreviation paramsFor := (paymentIntentParams NumberFormat).
Local Abbreviation cached c :=
  (CustomFields.stripeCustomerId (Customer.customFields c)).
Local Abbreviation lookup o := (EvFindOneOrder (Order.id o) ["customer"]).

Ltac reduce := cbn [fst snd db gateway app].

Ltac run :=
  unfold getStripeCustomerId, Logger_info, Logger_warn, bind, request, ret,
    emit, Repository_Order_findOne, Repository_Customer_save, result_of,
    world_of, events_of;
  reduce.

(** Every way through [getStripeCustomerId]: cached id, customer created,
    creation thrown, match reused, listing thrown, no customer, no order. *)
Ltac paths :=
  run;
  destruct (Db.findOne_Order _ _ _) as [found|] eqn:F; reduce;
  [ destruct (Order.customer found) as [c|] eqn:C; reduce;
    [ destruct (truthy_opt_string _) eqn:T; reduce;
      [ | destruct (customers_list _ _ _) as [[lst|err] g1] eqn:L; reduce;
          [ destruct (Stripe.data lst) as [|first rest] eqn:D; reduce;
            [ destruct (customers_create _ _ _) as [[nc|err] g2] eqn:N; reduce
            | ]
          | ] ]
    | ]
  | ].

(** The three ways through [createPaymentIntent] after the resolution. *)
Lemma createPaymentIntent_cases ctx order w :
  match resolve ctx order w with
  | (Throw e, w1, l1) => createIntent ctx order w = (Throw e, w1, l1)
  | (Return cid, w1, l1) =>
      match paymentIntents_create (stripe this) (paramsFor ctx order cid)
              (gateway w1) with
      | (Throw e, g) =>
          createIntent ctx order w
          = (Throw e, {| db := db w1; gateway := g |},
             (l1 ++ [EvPaymentIntentsCreate (paramsFor ctx order cid)])%list)
      | (Return intent, g) =>
          createIntent ctx order w
          = (Return (Stripe.client_secret intent),
             {| db := db w1; gateway := g |},
             (l1 ++ EvPaymentIntentsCreate (paramsFor ctx order cid)
                 :: (if truthy_opt_string (Stripe.client_secret intent)
                     then []
                     else [EvLoggerWarn (warnMessage order) loggerCtx]))%list)
      end
  end.
Proof.
  destruct (resolve ctx order w) as [[[cid|e] w1] l1] eqn:R.
  - destruct (paymentIntents_create _ _ _) as [[intent|e] g] eqn:P.
    + exact (createPaymentIntent_intent_returns _ _ _ _ _ _ _ _ _ _ _ R P).
    + exact (createPaymentIntent_intent_throws _ _ _ _ _ _ _ _ _ _ _ R P).
  - exact (createPaymentIntent_resolve_throws _ _ _ _ _ _ _ _ _ R).
Qed.

Lemma getStripeCustomerId_no_warning ctx order w :
  filter is_logger_warn (events_of (getId ctx order w)) = [].
Proof. paths; reflexivity. Qed.

Lemma resolveCustomerId_no_warning ctx order w :
  filter is_logger_warn (events_of (resolve ctx order w)) = [].
Proof.
  unfold resolveCustomerId. destruct (_ && _)%bool.
  - apply getStripeCustomerId_no_warning.
  - reflexivity.
Qed.

Lemma resolveCustomerId_enabled ctx order :
  StripePluginOptions.storeCustomersInStripe (options this) = true ->
  truthy_opt_ID (RequestContext.activeUserId ctx) = true ->
  resolve ctx order = getId ctx order.
Proof. intros S U. unfold resolveCustomerId. now rewrite S, U. Qed.

(** *** What the gateway is asked *)

(** X1. Every payment-intent request carries the order's currency code in
    lower case (no capital letter is left, the length is kept), automatic
    payment methods switched on, and as metadata the channel token of the
    context and the id and code of the order. *)
Theorem createPaymentIntent_request_shape ctx order w p :
  In p (payment_intent_requests (events_of (createIntent ctx order w))) ->
  Stripe.currency p = String_toLowerCase (Order.currencyCode order)
  /\ has_ascii_upper (Stripe.currency p) = false
  /\ String.length (Stripe.currency p) = String.length (Order.currencyCode order)
  /\ Stripe.automatic_payment_methods p = {| Stripe.enabled := true |}
  /\ Stripe.metadata p
     = {| Stripe.channelToken := Channel.token (RequestContext.channel ctx);
          Stripe.orderId := Order.id order;
          Stripe.orderCode := Order.code order |}.
Proof.
  intros H.
  apply (createPaymentIntent_sent loggerCtx NumberFormat this) in H.
  destruct H as [cid ->]. cbn [paymentIntentParams Stripe.currency
    Stripe.automatic_payment_methods Stripe.metadata].
  repeat split.
  - apply String_toLowerCase_no_upper.
  - apply String_toLowerCase_length.
Qed.

(** X9. With the option on and an active user, once the resolution has
    returned, the one payment-intent request carries exactly the resolved
    customer id, it is put to the gateway in the state the resolution left,
    and its answer decides the outcome of the call. *)
Theorem createPaymentIntent_attaches_customer ctx order w cid w1 l1 :
  StripePluginOptions.storeCustomersInStripe (options this) = true ->
  truthy_opt_ID (RequestContext.activeUserId ctx) = true ->
  getId ctx order w = (Return cid, w1, l1) ->
  let out := createIntent ctx order w in
  let p := paramsFor ctx order cid in
  Stripe.customer p = cid
  /\ payment_intent_requests (events_of out) = [p]
  /\ (exists tail, events_of out = (l1 ++ EvPaymentIntentsCreate p :: tail)%list)
  /\ result_of out
     = match fst (paymentIntents_create (stripe this) p (gateway w1)) with
       | Return intent => Return (Stripe.client_secret intent)
       | Throw e => Throw e
       end.
Proof.
  intros S U R out p. subst out p.
  pose proof (createPaymentIntent_cases ctx order w) as K.
  pose proof (createPaymentIntent_requests loggerCtx NumberFormat this ctx order w) as Q.
  rewrite (resolveCustomerId_enabled _ _ S U), R in K, Q.
  split; [reflexivity|]. split; [exact Q|].
  destruct (paymentIntents_create _ _ _) as [[intent|e] g]; rewrite K;
    (split; [eexists; reflexivity|reflexivity]).
Qed.

(** *** Failures *)

Lemma getStripeCustomerId_throws_store ctx order w e :
  result_of (getId ctx order w) = Throw e ->
  db (world_of (getId ctx order w)) = db w.
Proof. paths; intros H; try discriminate H; reflexivity. Qed.

(** X4. When the gateway's customer listing throws, or finds nobody and the
    customer creation then throws, [getStripeCustomerId] throws that error
    as it is; at that point it has saved nothing and logged no informational
    message, and the store is as it was. *)
Theorem getStripeCustomerId_gateway_failure_is_clean ctx order w found c e :
  Db.findOne_Order (db w) (Order.id order) ["customer"] = Some found ->
  Order.customer found = Some c ->
  truthy_opt_string (cached c) = false ->
  let listing :=
    customers_list (stripe this)
      {| Stripe.list_email := Customer.emailAddress c |} (gateway w) in
  let creation :=
    customers_create (stripe this)
      {| Stripe.email := Customer.emailAddress c;
         Stripe.name := Customer.firstName c ++ " " ++ Customer.lastName c |}
      (snd listing) in
  fst listing = Throw e
  \/ (exists lst,
         fst listing = Return lst /\ Stripe.data lst = []
         /\ fst creation = Throw e) ->
  let out := getId ctx order w in
  result_of out = Throw e
  /\ db (world_of out) = db w
  /\ filter is_store_write (events_of out) = []
  /\ filter is_logger_info (events_of out) = []
  /\ (fst listing = Throw e -> filter is_customers_create (events_of out) = []).
Proof.
  intros F C T listing creation H out. subst out creation listing.
  run. rewrite F; reduce. rewrite C; reduce. rewrite T; reduce.
  destruct (customers_list _ _ _) as [[lst|e1] g1]; cbn [fst snd] in H; reduce.
  - destruct H as [H|(lst' & H & D & N)]; [discriminate H|].
    injection H as <-. rewrite D; reduce.
    destruct (customers_create _ _ _) as [[nc|e2] g2]; cbn [fst] in N;
      [discriminate N|]. injection N as ->. reduce.
    repeat (split; [reflexivity|]). intros X. discriminate X.
  - destruct H as [H|(lst' & H & _)]; [|discriminate H].
    injection H as ->. repeat split; reflexivity.
Qed.

(** X3. With the option on and an active user, an error thrown by the
    customer resolution is thrown by [createPaymentIntent] as it is: the call
    stops there, no payment intent is requested and the store is
    untouched. *)
Theorem createPaymentIntent_resolution_error ctx order w e :
  StripePluginOptions.storeCustomersInStripe (options this) = true ->
  truthy_opt_ID (RequestContext.activeUserId ctx) = true ->
  result_of (getId ctx order w) = Throw e ->
  createIntent ctx order w = getId ctx order w
  /\ result_of (createIntent ctx order w) = Throw e
  /\ payment_intent_requests (events_of (createIntent ctx order w)) = []
  /\ db (world_of (createIntent ctx order w)) = db w.
Proof.
  intros S U H.
  pose proof (createPaymentIntent_cases ctx order w) as K.
  rewrite (resolveCustomerId_enabled _ _ S U) in K.
  destruct (getId ctx order w) as [[[cid|e'] w1] l1] eqn:R;
    [discriminate H|].
  rewrite K. split; [reflexivity|]. split; [exact H|]. split.
  - pose proof (getStripeCustomerId_no_intent loggerCtx this ctx order w) as Q.
    now rewrite R in Q.
  - pose proof (getStripeCustomerId_throws_store ctx order w e') as Q.
    rewrite R in Q. now apply Q.
Qed.

(** X2. An error thrown by the payment-intent request is thrown by
    [createPaymentIntent] as it is.  Nothing is undone: the store stays as
    the resolution left it, so a remote id saved on the way stays saved; and
    no warning is logged. *)
Theorem createPaymentIntent_intent_error ctx order w cid w1 l1 e g :
  resolve ctx order w = (Return cid, w1, l1) ->
  paymentIntents_create (stripe this) (paramsFor ctx order cid) (gateway w1)
  = (Throw e, g) ->
  let out := createIntent ctx order w in
  result_of out = Throw e
  /\ db (world_of out) = db w1
  /\ events_of out
     = (l1 ++ [EvPaymentIntentsCreate (paramsFor ctx order cid)])%list
  /\ filter is_logger_warn (events_of out) = [].
Proof.
  intros R P out. subst out.
  pose proof (createPaymentIntent_cases ctx order w) as K.
  pose proof (resolveCustomerId_no_warning ctx order w) as W.
  rewrite R in K, W. rewrite P in K. rewrite K.
  repeat (split; [reflexivity|]).
  unfold events_of in *; cbn [snd] in *.
  now rewrite filter_app, W.
Qed.

(** X12. When [createPaymentIntent] returns, it has logged its warning exactly
    when the value it returns is [undefined] or the empty string, and then
    once; the value returned is the client secret as the gateway gave it, so
    an empty secret is returned together with a warning. *)
Theorem createPaymentIntent_warns_iff_falsy ctx order w v :
  result_of (createIntent ctx order w) = Return v ->
  filter is_logger_warn (events_of (createIntent ctx order w))
  = if truthy_opt_string v
    then []
    else [EvLoggerWarn (warnMessage order) loggerCtx].
Proof.
  pose proof (createPaymentIntent_cases ctx order w) as K.
  pose proof (resolveCustomerId_no_warning ctx order w) as W.
  destruct (resolve ctx order w) as [[[cid|e] w1] l1].
  - destruct (paymentIntents_create _ _ _) as [[intent|e] g]; rewrite K;
      intros H; [|discriminate H].
    injection H as <-.
    unfold events_of in *; cbn [snd] in *.
    rewrite filter_app, W.
    destruct (truthy_opt_string _); reflexivity.
  - rewrite K. intros H. discriminate H.
Qed.

(** *** Amounts *)

(** X10. For a currency without a fraction part, a stored total that is a
    multiple of 100 is divided exactly: a hundred times the amount sent is
    the stored total. *)
Theorem createPaymentIntent_exact_hundreds ctx order w p k :
  currencyHasFractionPart NumberFormat (Order.currencyCode order) = false ->
  Order.totalWithTax order = 100 * k ->
  In p (payment_intent_requests (events_of (createIntent ctx order w))) ->
  Stripe.amount p = k /\ 100 * Stripe.amount p = Order.totalWithTax order.
Proof.
  intros Z T H.
  apply (createPaymentIntent_sent loggerCtx NumberFormat this) in H.
  destruct H as [cid ->]. cbn [paymentIntentParams Stripe.amount].
  rewrite Z, Math_round_hundredth, T.
  assert ((100 * k + 50) / 100 = k) as ->; [|split; reflexivity].
  symmetry. apply (Z.div_unique (100 * k + 50) 100 k 50); lia.
Qed.

(** X11. The amount sent grows with the stored total: of two orders in the
    same currency, the one with the larger total is never charged less; and
    a total that is not negative gives an amount that is not negative. *)
Theorem createPaymentIntent_amount_monotone ctx1 order1 w1 p1 ctx2 order2 w2 p2 :
  Order.currencyCode order1 = Order.currencyCode order2 ->
  Order.totalWithTax order1 <= Order.totalWithTax order2 ->
  In p1 (payment_intent_requests (events_of (createIntent ctx1 order1 w1))) ->
  In p2 (payment_intent_requests (events_of (createIntent ctx2 order2 w2))) ->
  Stripe.amount p1 <= Stripe.amount p2
  /\ (0 <= Order.totalWithTax order1 -> 0 <= Stripe.amount p1).
Proof.
  intros E T H1 H2.
  apply (createPaymentIntent_sent loggerCtx NumberFormat this) in H1, H2.
  destruct H1 as [cid1 ->], H2 as [cid2 ->].
  cbn [paymentIntentParams Stripe.amount]. rewrite E.
  destruct (currencyHasFractionPart _ _).
  - split; [exact T|trivial].
  - rewrite !Math_round_hundredth. split.
    + apply Z.div_le_mono; lia.
    + intros P. apply Z.div_pos; lia.
Qed.

(** *** What the store keeps *)

(** One call changes the store by at most one save, of a customer that the
    store holds and that has no usable cached id. *)
Lemma world_after_store call w :
  db (world_after loggerCtx NumberFormat this call w) = db w
  \/ exists c sid,
      Db.find_customer (db w) (Customer.id c) = Some c
      /\ truthy_opt_string (cached c) = false
      /\ db (world_after loggerCtx NumberFormat this call w)
         = Db.save_Customer (db w) (Customer.set_stripeCustomerId c (Some sid)).
Proof.
  assert (forall ctx order,
             db (world_of (getId ctx order w)) = db w
             \/ exists c sid,
                 Db.find_customer (db w) (Customer.id c) = Some c
                 /\ truthy_opt_string (cached c) = false
                 /\ db (world_of (getId ctx order w))
                    = Db.save_Customer (db w)
                        (Customer.set_stripeCustomerId c (Some sid))) as R.
  { intros ctx order.
    destruct (getStripeCustomerId_db loggerCtx this ctx order w)
      as [E|(found & c & sid & F & C & T & E)]; [now left|].
    right. exists c, sid. split; [|now split].
    exact (findOne_Order_customer _ _ _ _ _ F C). }
  destruct call as [ctx order|pid amount|payload signature|ctx order];
    cbn [world_after].
  - rewrite createPaymentIntent_db. unfold resolveCustomerId.
    destruct (_ && _)%bool; [apply R|now left].
  - left. apply createRefund_db.
  - now left.
  - apply R.
Qed.

Lemma world_after_rows call w :
  Db.orders (db (world_after loggerCtx NumberFormat this call w))
  = Db.orders (db w)
  /\ map Customer.id
       (Db.customers (db (world_after loggerCtx NumberFormat this call w)))
     = map Customer.id (Db.customers (db w)).
Proof.
  destruct (world_after_store call w) as [->|(c & sid & F & _ & ->)];
    [now split|].
  split; [reflexivity|].
  rewrite (save_found_customers _ _ _ F). apply replace_customer_ids.
Qed.

Lemma world_after_all_orders calls w :
  Db.orders (db (world_after_all loggerCtx NumberFormat this calls w))
  = Db.orders (db w).
Proof.
  revert w. induction calls as [|call calls IH]; intros w; cbn; [reflexivity|].
  rewrite IH. apply world_after_rows.
Qed.

(** X5. No sequence of calls to the service inserts, deletes or reorders a
    row: the order table is the same afterwards, and so is the list of
    customer ids. *)
Theorem service_keeps_rows calls w :
  Db.orders (db (world_after_all loggerCtx NumberFormat this calls w))
  = Db.orders (db w)
  /\ map Customer.id
       (Db.customers (db (world_after_all loggerCtx NumberFormat this calls w)))
     = map Customer.id (Db.customers (db w)).
Proof.
  revert w. induction calls as [|call calls IH]; intros w; cbn; [now split|].
  destruct (IH (world_after loggerCtx NumberFormat this call w)) as [O K].
  destruct (world_after_rows call w) as [O' K'].
  split; congruence.
Qed.

(** X6. When customer ids are unique in the store, a sequence of calls to the
    service changes nothing in it but cached remote ids: with those blanked,
    the customer table afterwards is the customer table before. *)
Theorem service_writes_only_stripeCustomerId calls w :
  NoDup (map Customer.id (Db.customers (db w))) ->
  map without_stripeCustomerId
      (Db.customers (db (world_after_all loggerCtx NumberFormat this calls w)))
  = map without_stripeCustomerId (Db.customers (db w)).
Proof.
  revert w. induction calls as [|call calls IH]; intros w U; cbn;
    [reflexivity|].
  rewrite IH by (now rewrite (proj2 (world_after_rows call w))).
  destruct (world_after_store call w) as [->|(c & sid & F & _ & ->)];
    [reflexivity|].
  rewrite (save_found_customers _ _ _ F).
  apply replace_customer_without.
  intros x I E.
  exact (map_injective_on_NoDup Customer.id _ x c U I (find_customer_In _ _ _ F) E).
Qed.

(** A saved remote id is what the next lookup of the order brings back. *)
Lemma findOne_Order_after_save d k relations found c v :
  Db.findOne_Order d k relations = Some found ->
  Order.customer found = Some c ->
  exists found',
    Db.findOne_Order (Db.save_Customer d (Customer.set_stripeCustomerId c v))
      k relations = Some found'
    /\ Order.customer found' = Some (Customer.set_stripeCustomerId c v).
Proof.
  unfold Db.findOne_Order, Db.find_order_row. intros F C.
  cbn [Db.orders Db.save_Customer].
  destruct (find _ (Db.orders d)) as [r|]; [|discriminate].
  injection F as <-. cbn [Order.customer] in C.
  destruct (existsb _ relations); [|discriminate].
  destruct (Db.row_customerId r) as [cid|]; [|discriminate].
  eexists. split; [reflexivity|]. cbn [Order.customer].
  rewrite <- (find_customer_id _ _ _ C).
  apply (find_customer_save_same d (Customer.set_stripeCustomerId c v)).
Qed.

Lemma getStripeCustomerId_result_is_cached ctx order w sid w1 l1 :
  getId ctx order w = (Return (Some sid), w1, l1) ->
  exists found c,
    Db.findOne_Order (db w1) (Order.id order) ["customer"] = Some found
    /\ Order.customer found = Some c
    /\ cached c = Some sid.
Proof.
  paths; intros H; try discriminate H; injection H as <- <- <-; reduce.
  - now exists found, c.
  - destruct (findOne_Order_after_save _ _ _ _ _ (Some (Stripe.id nc)) F C)
      as (found' & F' & C').
    now exists found', (Customer.set_stripeCustomerId c (Some (Stripe.id nc))).
  - destruct (findOne_Order_after_save _ _ _ _ _ (Some (Stripe.id first)) F C)
      as (found' & F' & C').
    now exists found', (Customer.set_stripeCustomerId c (Some (Stripe.id first))).
Qed.

(** *** Writes and call counts *)

(** X8. Whenever [getStripeCustomerId] saves a customer, it is its only write,
    the save is made with [reload: false], the record saved is the stored one
    with nothing changed but the remote id, that id is the value returned,
    and a later lookup of the customer finds the record saved. *)
Theorem getStripeCustomerId_save_discipline ctx order w saved reload :
  In (EvSaveCustomer saved reload) (events_of (getId ctx order w)) ->
  reload = false
  /\ filter is_store_write (events_of (getId ctx order w))
     = [EvSaveCustomer saved reload]
  /\ result_of (getId ctx order w) = Return (cached saved)
  /\ (exists sid, cached saved = Some sid)
  /\ Db.find_customer (db (world_of (getId ctx order w))) (Customer.id saved)
     = Some saved
  /\ exists old,
      Db.find_customer (db w) (Customer.id saved) = Some old
      /\ truthy_opt_string (cached old) = false
      /\ without_stripeCustomerId old = without_stripeCustomerId saved.
Proof.
  paths; intros H; cbn [In] in H;
    repeat (destruct H as [H|H]; [try discriminate H|]); try contradiction;
    injection H as <- <-;
    (split; [reflexivity|]); (split; [reflexivity|]); (split; [reflexivity|]);
    (split; [eexists; reflexivity|]);
    (split; [apply find_customer_save_same|]);
    exists c; (split; [exact (findOne_Order_customer _ _ _ _ _ F C)|]);
    now split.
Qed.

(** The log of a resolution has one of five shapes. *)
Lemma getStripeCustomerId_log ctx order w :
  exists list create info save,
    events_of (getId ctx order w)
    = (lookup order :: list ++ create ++ info ++ save)%list
    /\ (list = [] \/ exists p, list = [EvCustomersList p])
    /\ (create = [] \/ exists p, create = [EvCustomersCreate p] /\ list <> [])
    /\ (info = [] \/ exists m, info = [EvLoggerInfo m loggerCtx] /\ create <> [])
    /\ (save = [] \/ exists c, save = [EvSaveCustomer c false] /\ list <> []).
Proof.
  paths.
  - exists [], [], [], []. repeat split; now left.
  - eexists [_], [_], [_], [_]. split; [reflexivity|].
    repeat split; right; eexists; (try split); (reflexivity || discriminate).
  - eexists [_], [_], [], []. split; [reflexivity|].
    split; [right; eexists; reflexivity|].
    split; [right; eexists; split; [reflexivity|discriminate]|].
    split; now left.
  - eexists [_], [], [], [_]. split; [reflexivity|].
    split; [right; eexists; reflexivity|].
    split; [now left|]. split; [now left|].
    right; eexists; split; [reflexivity|discriminate].
  - eexists [_], [], [], []. split; [reflexivity|].
    split; [right; eexists; reflexivity|]. repeat split; now left.
  - exists [], [], [], []. repeat split; now left.
  - exists [], [], [], []. repeat split; now left.
Qed.

(** X13. One call of [createPaymentIntent] looks the order up at most once,
    asks the gateway at most once each for a customer listing, a customer
    creation and the payment intent, so three times at most, and writes to
    the store at most once; it creates a customer only after a listing. *)
Theorem createPaymentIntent_call_bounds ctx order w :
  let l := events_of (createIntent ctx order w) in
  (length (filter is_order_lookup l) <= 1)%nat
  /\ (length (filter is_customers_list l) <= 1)%nat
  /\ (length (filter is_customers_create l)
      <= length (filter is_customers_list l))%nat
  /\ (length (payment_intent_requests l) <= 1)%nat
  /\ (length (filter is_gateway_call l) <= 3)%nat
  /\ (length (filter is_store_write l) <= 1)%nat.
Proof.
  cbv zeta.
  assert (exists l1 tail,
             events_of (createIntent ctx order w) = (l1 ++ tail)%list
             /\ (l1 = [] \/ l1 = events_of (getId ctx order w))
             /\ (tail = []
                 \/ (exists p, tail = [EvPaymentIntentsCreate p])
                 \/ (exists p m, tail = [EvPaymentIntentsCreate p;
                                         EvLoggerWarn m loggerCtx]))) as S.
  { pose proof (createPaymentIntent_cases ctx order w) as K.
    assert (forall x, events_of (resolve ctx order w) = x ->
                      x = [] \/ x = events_of (getId ctx order w)) as Q.
    { intros x <-. unfold resolveCustomerId.
      destruct (_ && _)%bool; [now right|now left]. }
    destruct (resolve ctx order w) as [[[cid|e] w1] l1].
    - destruct (paymentIntents_create _ _ _) as [[intent|e] g]; rewrite K;
        exists l1; eexists; (split; [reflexivity|]);
        (split; [now apply Q|]).
      + destruct (truthy_opt_string _);
          [right; left; eexists; reflexivity
          |right; right; eexists; eexists; reflexivity].
      + right; left; eexists; reflexivity.
    - rewrite K. exists l1, []. split; [now rewrite app_nil_r|].
      split; [now apply Q|now left]. }
  destruct S as (l1 & tail & -> & L & T).
  destruct (getStripeCustomerId_log ctx order w)
    as (li & cr & inf & sv & E & Hl & Hc & Hi & Hs).
  destruct L as [->| ->];
    [|rewrite E];
    destruct T as [->|[(p & ->)|(p & m & ->)]];
    try (destruct Hl as [->|(pl & ->)];
         destruct Hc as [->|(pc & -> & Nl)];
         destruct Hi as [->|(mi & -> & Nc)];
         destruct Hs as [->|(cs & -> & Ns)]);
    try (exfalso; congruence);
    cbn; repeat split; lia.
Qed.

End Coverage.

(* ------------------------------------------------------------------ *)
(** ** The further theorems at work on the example store *)

Module CoverageExamples.

Import Demo.

(** The request for Alice's order: "usd", tagged with channel and order. *)
Lemma createPaymentIntent_request_shape_witness :
  exists p,
    payment_intent_requests
      (events_of (createPaymentIntent loggerCtx NumberFormat syncing user
                    usd_order (world [])))
    = [p]
    /\ Stripe.currency p = "usd"
    /\ Stripe.metadata p
       = {| Stripe.channelToken := "default-channel";
            Stripe.orderId := IdNum 10;
            Stripe.orderCode := "ORD10" |}.
Proof.
  eexists. split; [reflexivity|].
  destruct (createPaymentIntent_request_shape loggerCtx NumberFormat syncing
              user usd_order (world []) _ (or_introl eq_refl))
    as (C & _ & _ & _ & M).
  split; [exact C|exact M].
Defined.

(** Nothing to pay: the gateway refuses, and Alice's new remote id stays. *)
Lemma createPaymentIntent_intent_error_witness :
  let out :=
    createPaymentIntent loggerCtx NumberFormat syncing user free_order (world []) in
  result_of out = Throw "amount_too_small"
  /\ Db.find_customer (db (world_of out)) (IdNum 1)
     = Some (Customer.set_stripeCustomerId alice (Some "cus_alice@example.com"))
  /\ filter is_logger_warn (events_of out) = [].
Proof.
  cbv zeta.
  destruct (createPaymentIntent_intent_error loggerCtx NumberFormat syncing user
              free_order (world [])
              (Some "cus_alice@example.com") _ _ "amount_too_small" _
              eq_refl eq_refl) as (R & D & _ & W).
  split; [exact R|]. split; [rewrite D; reflexivity|exact W].
Defined.

(** The gateway cannot list customers: the call stops before any intent. *)
Lemma createPaymentIntent_resolution_error_witness :
  let out :=
    createPaymentIntent loggerCtx NumberFormat (broken true) user usd_order
      (world []) in
  result_of out = Throw "api_connection_error"
  /\ payment_intent_requests (events_of out) = []
  /\ db (world_of out) = store.
Proof.
  cbv zeta.
  destruct (createPaymentIntent_resolution_error loggerCtx NumberFormat
              (broken true) user usd_order (world []) "api_connection_error"
              eq_refl eq_refl eq_refl) as (_ & R & Q & D).
  split; [exact R|]. split; [exact Q|exact D].
Defined.

(** The gateway lists but cannot create: nothing is saved for Alice. *)
Lemma getStripeCustomerId_gateway_failure_is_clean_witness :
  let out := getStripeCustomerId loggerCtx (broken false) user usd_order (world []) in
  result_of out = Throw "api_connection_error"
  /\ db (world_of out) = store
  /\ filter is_store_write (events_of out) = []
  /\ filter is_logger_info (events_of out) = [].
Proof.
  cbv zeta.
  destruct (getStripeCustomerId_gateway_failure_is_clean loggerCtx (broken false)
              user usd_order (world [])
              {| Order.id := IdNum 10; Order.code := "ORD10";
                 Order.currencyCode := "USD"; Order.totalWithTax := 1999;
                 Order.customer := Some alice |}
              alice "api_connection_error" eq_refl eq_refl eq_refl
              (or_intror (ex_intro _ {| Stripe.data := [] |}
                            (conj eq_refl (conj eq_refl eq_refl)))))
    as (R & D & S & I & _).
  split; [exact R|]. split; [exact D|]. split; [exact S|exact I].
Defined.

Lemma store_ids_unique : NoDup (map Customer.id (Db.customers store)).
Proof.
  cbn. constructor.
  - intros [H|[]]. discriminate H.
  - constructor; [intros []|constructor].
Defined.

(** A run of calls changes the example store in cached remote ids only. *)
Lemma service_writes_only_stripeCustomerId_witness :
  map without_stripeCustomerId
      (Db.customers
         (db (world_after_all loggerCtx NumberFormat syncing
                [CallCreatePaymentIntent user usd_order;
                 CallCreateRefund "pi_ORD10" 500;
                 CallGetStripeCustomerId user jpy_order]
                (world []))))
  = map without_stripeCustomerId [alice; bob].
Proof.
  exact (service_writes_only_stripeCustomerId loggerCtx NumberFormat syncing
           [CallCreatePaymentIntent user usd_order;
            CallCreateRefund "pi_ORD10" 500;
            CallGetStripeCustomerId user jpy_order]
           (world []) store_ids_unique).
Defined.

(** The one save for Alice carries the id that is returned. *)
Lemma getStripeCustomerId_save_discipline_witness :
  let out := getStripeCustomerId loggerCtx syncing user usd_order (world []) in
  let saved := Customer.set_stripeCustomerId alice (Some "cus_alice@example.com") in
  filter is_store_write (events_of out) = [EvSaveCustomer saved false]
  /\ result_of out = Return (Some "cus_alice@example.com").
Proof.
  cbv zeta.
  destruct (getStripeCustomerId_save_discipline loggerCtx syncing user usd_order
              (world [])
              (Customer.set_stripeCustomerId alice (Some "cus_alice@example.com"))
              false
              (or_intror (or_intror (or_intror (or_intror (or_introl eq_refl))))))
    as (_ & W & R & _).
  split; [exact W|exact R].
Defined.

(** Alice's remote id, found at the gateway, travels with the request. *)
Lemma createPaymentIntent_attaches_customer_witness :
  exists p,
    payment_intent_requests
      (events_of (createPaymentIntent loggerCtx NumberFormat syncing user
                    usd_order (world [alice_remote])))
    = [p]
    /\ Stripe.customer p = Some "cus_A1".
Proof.
  destruct (createPaymentIntent_attaches_customer loggerCtx NumberFormat syncing
              user usd_order (world [alice_remote]) (Some "cus_A1") _ _
              eq_refl eq_refl eq_refl) as (C & Q & _).
  eexists. split; [exact Q|exact C].
Defined.

(** 100000 JPY is a thousand hundreds. *)
Lemma createPaymentIntent_exact_hundreds_witness :
  exists p,
    payment_intent_requests
      (events_of (createPaymentIntent loggerCtx NumberFormat plain user
                    jpy_order (world [])))
    = [p]
    /\ 100 * Stripe.amount p = 100000.
Proof.
  eexists. split; [reflexivity|].
  exact (proj2 (createPaymentIntent_exact_hundreds loggerCtx NumberFormat plain
                  user jpy_order (world []) _ 1000 eq_refl eq_refl
                  (or_introl eq_refl))).
Defined.

(** 150 JPY is charged no more than 100000 JPY. *)
Lemma createPaymentIntent_amount_monotone_witness :
  exists p1 p2,
    payment_intent_requests
      (events_of (createPaymentIntent loggerCtx NumberFormat plain user
                    half_order (world [])))
    = [p1]
    /\ payment_intent_requests
         (events_of (createPaymentIntent loggerCtx NumberFormat plain user
                       jpy_order (world [])))
       = [p2]
    /\ Stripe.amount p1 <= Stripe.amount p2.
Proof.
  eexists. eexists. split; [reflexivity|]. split; [reflexivity|].
  refine (proj1 (createPaymentIntent_amount_monotone loggerCtx NumberFormat plain
                   user half_order (world []) _ user jpy_order (world []) _
                   eq_refl _ (or_introl eq_refl) (or_introl eq_refl))).
  discriminate.
Defined.

(** An empty client secret is returned as it is, with the warning. *)
Lemma createPaymentIntent_warns_iff_falsy_witness :
  let out :=
    createPaymentIntent loggerCtx NumberFormat (service false (fun _ => Some ""))
      anonymous usd_order (world []) in
  result_of out = Return (Some "")
  /\ filter is_logger_warn (events_of out)
     = [EvLoggerWarn
          "Payment intent creation for order ORD10 did not return client secret"
          "StripePlugin"].
Proof.
  cbv zeta. split; [reflexivity|].
  exact (createPaymentIntent_warns_iff_falsy loggerCtx NumberFormat
           (service false (fun _ => Some "")) anonymous usd_order (world [])
           (Some "") eq_refl).
Defined.

End CoverageExamples.

(* ------------------------------------------------------------------ *)
(** * Calls that overlap *)

Section Interleaving.

Context {G Refund StripeEvent Exn : Type}.
Variable loggerCtx : string.
Variable NumberFormat : Intl.NumberFormat.
Variable this : StripeService G Refund StripeEvent Exn.

Local Abbreviation getId := (getStripeCustomerId loggerCtx this).
Local Abbreviation createIntent := (createPaymentIntent loggerCtx NumberFormat this).
Local Abbreviation cached c :=
  (CustomFields.stripeCustomerId (Customer.customFields c)).
Local Abbreviation stage := (step_stage loggerCtx this).
Local Abbreviation step := (step_task loggerCtx NumberFormat this).
Local Abbreviation interleave := (run_schedule loggerCtx NumberFormat this).

Ltac reduce := cbn [fst snd db gateway app].

Ltac unfold_calls :=
  unfold getStripeCustomerId, createPaymentIntent, createRefund,
    constructEventFromPayload, Logger_info, Logger_warn, bind, try_catch,
    request, ret, emit, Repository_Order_findOne, Repository_Customer_save,
    result_of, world_of, events_of, paymentIntentParams, warnMessage.

(** Split on the next collaborator answer that the goal examines. *)
Ltac answer :=
  match goal with
  | |- context [Db.findOne_Order ?d ?k ?r] =>
      destruct (Db.findOne_Order d k r) as [?found|] eqn:?F
  | |- context [match Order.customer ?o with _ => _ end] =>
      destruct (Order.customer o) as [?c|] eqn:?C
  | |- context [if truthy_opt_string ?v then _ else _] =>
      destruct (truthy_opt_string v) eqn:?T
  | |- context [customers_list ?s ?p ?g] =>
      destruct (customers_list s p g) as [[?lst|?err] ?g1] eqn:?L
  | |- context [match Stripe.data ?l with _ => _ end] =>
      destruct (Stripe.data l) as [|?first ?rest] eqn:?D
  | |- context [customers_create ?s ?p ?g] =>
      destruct (customers_create s p g) as [[?nc|?err] ?g2] eqn:?N
  | |- context [paymentIntents_create ?s ?p ?g] =>
      destruct (paymentIntents_create s p g) as [[?intent|?err] ?g3] eqn:?P
  | |- context [refunds_create ?s ?p ?g] =>
      destruct (refunds_create s p g) as [[?refund|?err] ?g4] eqn:?R
  end.

Ltac answers :=
  repeat (cbn [run_stage run_task step_stage step_task fst snd db gateway app];
          unfold_calls; try answer).

(** ** The steps of a call, run without interruption, are the call *)

Lemma run_stage_is_getStripeCustomerId ctx order w :
  run_stage loggerCtx this 4 (AtLookup ctx order) w
  = (Resolved (result_of (getId ctx order w)),
     world_of (getId ctx order w),
     events_of (getId ctx order w)).
Proof. unfold_calls. answers; reflexivity. Qed.

Lemma run_task_is_the_call call w :
  state_in (run_task loggerCtx NumberFormat this 5 (start this call) w) = Settled
  /\ world_in (run_task loggerCtx NumberFormat this 5 (start this call) w)
     = world_after loggerCtx NumberFormat this call w
  /\ log_in (run_task loggerCtx NumberFormat this 5 (start this call) w)
     = match call with
       | CallCreatePaymentIntent ctx order => events_of (createIntent ctx order w)
       | CallCreateRefund paymentIntentId amount =>
           events_of (createRefund this paymentIntentId amount w)
       | CallConstructEventFromPayload payload signature =>
           events_of (constructEventFromPayload this payload signature w)
       | CallGetStripeCustomerId ctx order => events_of (getId ctx order w)
       end.
Proof.
  unfold state_in, world_in, log_in.
  destruct call as [ctx order|pid amount|payload signature|ctx order];
    cbn [start world_after].
  - unfold createPaymentIntent, bind. destruct (_ && _)%bool;
      unfold_calls; answers; repeat split; reflexivity.
  - unfold_calls; answers; repeat split; reflexivity.
  - unfold_calls; answers; repeat split; reflexivity.
  - unfold_calls; answers; repeat split; reflexivity.
Qed.

(** ** What overlapping calls keep *)

(** A step never touches the order table. *)
Lemma step_stage_orders s w :
  Db.orders (db (world_in (stage s w))) = Db.orders (db w).
Proof.
  unfold world_in. destruct s; cbn [step_stage]; reduce; try reflexivity.
  - destruct (customers_list _ _ _) as [r g]. reflexivity.
  - destruct (customers_create _ _ _) as [[nc|e] g]; reflexivity.
Qed.

Lemma step_task_orders t w :
  Db.orders (db (world_in (step t w))) = Db.orders (db w).
Proof.
  destruct t as [s|ctx order s|ctx order cid|pid amount|payload signature|];
    cbn [step_task].
  - pose proof (step_stage_orders s w) as H.
    destruct (stage s w) as [[s1 w1] l1]. exact H.
  - pose proof (step_stage_orders s w) as H.
    destruct (stage s w) as [[s1 w1] l1]. exact H.
  - destruct (paymentIntents_create _ _ _) as [r g]. reflexivity.
  - unfold world_in; cbn [fst snd]. now rewrite createRefund_db.
  - reflexivity.
  - reflexivity.
Qed.

Lemma step_nth_orders pool : forall i w,
  Db.orders (db (world_in (step_nth loggerCtx NumberFormat this i pool w)))
  = Db.orders (db w).
Proof.
  induction pool as [|t rest IH]; intros i w; [destruct i; reflexivity|].
  destruct i as [|j]; cbn [step_nth].
  - pose proof (step_task_orders t w) as H.
    destruct (step t w) as [[t1 w1] l1]. exact H.
  - pose proof (IH j w) as H.
    destruct (step_nth _ _ _ j rest w) as [[rest1 w1] l1]. exact H.
Qed.

Lemma run_schedule_orders schedule : forall pool w,
  Db.orders (db (world_in (interleave schedule pool w))) = Db.orders (db w).
Proof.
  induction schedule as [|i later IH]; intros pool w; [reflexivity|].
  cbn [run_schedule].
  pose proof (step_nth_orders pool i w) as H1.
  destruct (step_nth _ _ _ i pool w) as [[pool1 w1] l1].
  pose proof (IH pool1 w1) as H2.
  destruct (interleave later pool1 w1) as [[pool2 w2] l2].
  unfold world_in in *; cbn [fst snd] in *. congruence.
Qed.

(** A customer with a cached id is never picked up as a copy, and a step of
    a call that holds no copy of that customer leaves the record alone. *)
Lemma step_stage_keeps k c s w :
  Db.find_customer (db w) k = Some c ->
  truthy_opt_string (cached c) = true ->
  holds_copy k (Resolving s) = false ->
  Db.find_customer (db (world_in (stage s w))) k = Some c
  /\ holds_copy k (Resolving (state_in (stage s w))) = false.
Proof.
  intros K T H. unfold world_in, state_in, holds_copy in *.
  destruct s as [ctx order|c'|c'|c' sid|r]; cbn [step_stage task_copy stage_copy] in *.
  - reduce. split; [exact K|].
    destruct (Db.findOne_Order _ _ _) as [found|] eqn:F; [|reflexivity].
    destruct (Order.customer found) as [c'|] eqn:C; [|reflexivity].
    destruct (truthy_opt_string (cached c')) eqn:T'; [reflexivity|].
    cbn [stage_copy]. apply ID_eqb_neq. intros E.
    pose proof (findOne_Order_customer _ _ _ _ _ F C) as K'.
    rewrite E, K in K'. injection K' as ->. congruence.
  - destruct (customers_list _ _ _) as [[lst|e] g]; reduce;
      [destruct (Stripe.data lst)|]; now split.
  - destruct (customers_create _ _ _) as [[nc|e] g]; reduce; now split.
  - reduce. split; [|reflexivity].
    rewrite find_customer_save_other; [exact K|].
    now apply ID_eqb_neq.
  - now split.
Qed.

Lemma step_task_keeps k c t w :
  Db.find_customer (db w) k = Some c ->
  truthy_opt_string (cached c) = true ->
  holds_copy k t = false ->
  Db.find_customer (db (world_in (step t w))) k = Some c
  /\ holds_copy k (state_in (step t w)) = false.
Proof.
  intros K T H.
  destruct t as [s|ctx order s|ctx order cid|pid amount|payload signature|];
    cbn [step_task].
  - destruct (step_stage_keeps k c s w K T H) as [K1 H1].
    destruct (stage s w) as [[s1 w1] l1].
    split; [exact K1|]. unfold state_in in *; cbn [fst snd] in *.
    destruct s1; first [exact H1|reflexivity].
  - destruct (step_stage_keeps k c s w K T H) as [K1 H1].
    destruct (stage s w) as [[s1 w1] l1].
    split; [exact K1|]. unfold state_in in *; cbn [fst snd] in *.
    destruct s1 as [? ?|?|?|? ?|[?|?]]; first [exact H1|reflexivity].
  - destruct (paymentIntents_create _ _ _) as [r g]. now split.
  - split; [|reflexivity]. unfold world_in; cbn [fst snd].
    now rewrite createRefund_db.
  - now split.
  - now split.
Qed.

Lemma step_nth_keeps k c pool : forall i w,
  Db.find_customer (db w) k = Some c ->
  truthy_opt_string (cached c) = true ->
  (forall t, In t pool -> holds_copy k t = false) ->
  Db.find_customer
    (db (world_in (step_nth loggerCtx NumberFormat this i pool w))) k = Some c
  /\ forall t, In t (state_in (step_nth loggerCtx NumberFormat this i pool w)) ->
               holds_copy k t = false.
Proof.
  induction pool as [|t rest IH]; intros i w K T H;
    [destruct i; now split|].
  destruct i as [|j]; cbn [step_nth].
  - destruct (step_task_keeps k c t w K T (H t (or_introl eq_refl))) as [K1 H1].
    destruct (step t w) as [[t1 w1] l1].
    split; [exact K1|]. intros x [<-|I]; [exact H1|]. apply H. now right.
  - destruct (IH j w K T (fun x I => H x (or_intror I))) as [K1 H1].
    destruct (step_nth _ _ _ j rest w) as [[rest1 w1] l1].
    split; [exact K1|]. intros x [<-|I]; [|now apply H1].
    apply H. now left.
Qed.

Lemma run_schedule_keeps k c schedule : forall pool w,
  Db.find_customer (db w) k = Some c ->
  truthy_opt_string (cached c) = true ->
  (forall t, In t pool -> holds_copy k t = false) ->
  Db.find_customer (db (world_in (interleave schedule pool w))) k = Some c
  /\ forall t, In t (state_in (interleave schedule pool w)) ->
               holds_copy k t = false.
Proof.
  induction schedule as [|i later IH]; intros pool w K T H; [now split|].
  cbn [run_schedule].
  destruct (step_nth_keeps k c pool i w K T H) as [K1 H1].
  destruct (step_nth _ _ _ i pool w) as [[pool1 w1] l1].
  destruct (IH pool1 w1 K1 T H1) as [K2 H2].
  destruct (interleave later pool1 w1) as [[pool2 w2] l2].
  now split.
Qed.

Lemma start_holds_no_copy k call : holds_copy k (start this call) = false.
Proof.
  destruct call; cbn [start]; try reflexivity.
  destruct (_ && _)%bool; reflexivity.
Qed.

Lemma no_copy_holds_none (k : ID) (t : @Task Exn) :
  task_copy t = None -> holds_copy k t = false.
Proof. unfold holds_copy. now intros ->. Qed.

(** C2. Take a customer whose stored record carries a cached
    [stripeCustomerId] (a non-empty string).  Resolving the remote id for an
    order of that customer returns the cached value after the order lookup
    alone: no gateway call, no save, the world is unchanged.  Calls that run
    one after another leave the stored record as it is.  So do calls whose
    steps interleave in any order, as long as none of the calls in flight
    carries a copy of that customer loaded earlier; and no call picks up
    such a copy on the way. *)
Theorem cached_stripeCustomerId_survives w k c sid :
  Db.find_customer (db w) k = Some c ->
  cached c = Some sid ->
  sid <> "" ->
  (forall ctx activeOrder order,
      Db.findOne_Order (db w) (Order.id activeOrder) ["customer"] = Some order ->
      Order.customer order = Some c ->
      getId ctx activeOrder w
      = (Return (Some sid), w,
         [EvFindOneOrder (Order.id activeOrder) ["customer"]])
      /\ forall e, In e (events_of (getId ctx activeOrder w)) ->
                   is_gateway_call e = false /\ is_store_write e = false)
  /\ (forall calls,
         Db.find_customer
           (db (world_after_all loggerCtx NumberFormat this calls w)) k
         = Some c)
  /\ (forall pool schedule,
         (forall t, In t pool -> holds_copy k t = false) ->
         Db.find_customer (db (world_in (interleave schedule pool w))) k = Some c
         /\ forall t, In t (state_in (interleave schedule pool w)) ->
                      holds_copy k t = false).
Proof.
  intros K C N.
  destruct (cached_stripeCustomerId_one_by_one loggerCtx NumberFormat this
              w k c sid K C N) as [short one_by_one].
  split; [exact short|]. split; [exact one_by_one|].
  intros pool schedule H. apply run_schedule_keeps; [exact K| |exact H].
  rewrite C. now apply truthy_string_iff.
Qed.

(** X7. Once [getStripeCustomerId] has returned a non-empty remote id for an
    order, a later resolution for that order returns the same id after the
    order lookup alone, whatever steps of other calls have run in between, in
    whatever order, provided none of those calls was in flight with a
    customer record that it had loaded earlier. *)
Theorem resolved_id_is_stable_for_later_calls ctx order w sid w1 l1 :
  getId ctx order w = (Return (Some sid), w1, l1) ->
  sid <> "" ->
  forall pool schedule ctx',
    (forall t, In t pool -> task_copy t = None) ->
    let w2 := world_in (interleave schedule pool w1) in
    getId ctx' order w2
    = (Return (Some sid), w2, [EvFindOneOrder (Order.id order) ["customer"]]).
Proof.
  intros R N pool schedule ctx' H w2. subst w2.
  destruct (getStripeCustomerId_result_is_cached _ _ _ _ _ _ _ _ R)
    as (found & c & F & C & S).
  assert (truthy_opt_string (cached c) = true) as T
      by (rewrite S; now apply truthy_string_iff).
  pose proof (findOne_Order_customer _ _ _ _ _ F C) as K.
  destruct (run_schedule_keeps _ c schedule pool w1 K T
              (fun t I => no_copy_holds_none _ t (H t I))) as [K' _].
  pose proof (run_schedule_orders schedule pool w1) as O.
  pose proof (findOne_Order_stable _ _ _ _ _ _ F C O K') as F'.
  rewrite (getStripeCustomerId_cached loggerCtx this ctx' order _ _ _ F' C T).
  now rewrite S.
Qed.

End Interleaving.

(* ------------------------------------------------------------------ *)
(** ** Overlapping calls on the example store *)

Module InterleavingExamples.

Import Demo.

(** Two resolutions for Alice overlap.  When the second has ended, Alice's
    record carries the id "cus_0".  The first, which had loaded her record
    before, then creates another remote customer and saves "cus_1" over it:
    a cached id is not safe from a call that was already in flight. *)
Lemma cached_id_overwritten_by_call_in_flight :
  stored_stripeCustomerId (db (world_in Race.halfway)) (IdNum 1)
  = Some (Some "cus_0")
  /\ state_in Race.halfway
     = [Resolving (AtCreate alice); Settled]
  /\ stored_stripeCustomerId (db (world_in Race.at_last)) (IdNum 1)
     = Some (Some "cus_1")
  /\ ~ (forall pool schedule w k c,
           Db.find_customer (db w) k = Some c ->
           truthy_opt_string
             (CustomFields.stripeCustomerId (Customer.customFields c)) = true ->
           Db.find_customer
             (db (world_in (run_schedule loggerCtx NumberFormat Race.service
                              schedule pool w))) k
           = Some c).
Proof.
  split; [reflexivity|]. split; [reflexivity|]. split; [reflexivity|].
  intros H.
  specialize (H (state_in Race.halfway) Race.second_half (world_in Race.halfway)
                (IdNum 1) (Customer.set_stripeCustomerId alice (Some "cus_0"))
                eq_refl eq_refl).
  vm_compute in H. discriminate H.
Qed.

(** Bob's cached id is returned for his order, and it survives calls that run
    one after another as well as calls that overlap. *)
Lemma cached_stripeCustomerId_survives_witness :
  getStripeCustomerId loggerCtx syncing user jpy_order (world [])
  = (Return (Some "cus_bob"), world [],
     [EvFindOneOrder (IdNum 11) ["customer"]])
  /\ Db.find_customer
       (db (world_after_all loggerCtx NumberFormat syncing
              [CallCreatePaymentIntent user usd_order;
               CallGetStripeCustomerId user jpy_order;
               CallCreateRefund "pi_ORD11" 500;
               CallConstructEventFromPayload [] "sig:whsec_1";
               CallCreatePaymentIntent user jpy_order]
              (world [])))
       (IdNum 2)
     = Some bob
  /\ Db.find_customer
       (db (world_in
              (run_schedule loggerCtx NumberFormat syncing
                 [1; 0; 1; 2; 1; 0; 1; 0; 2; 0; 0]%nat
                 [start syncing (CallCreatePaymentIntent user usd_order);
                  start syncing (CallGetStripeCustomerId user usd_order);
                  start syncing (CallCreatePaymentIntent user jpy_order)]
                 (world []))))
       (IdNum 2)
     = Some bob.
Proof.
  destruct (cached_stripeCustomerId_survives loggerCtx NumberFormat syncing
              (world []) (IdNum 2) bob "cus_bob" eq_refl eq_refl
              ltac:(discriminate)) as (short & one_by_one & overlapping).
  split; [|split].
  - eapply (fun o F C => proj1 (short user jpy_order o F C)); reflexivity.
  - apply one_by_one.
  - apply overlapping. intros t [<-|[<-|[<-|[]]]]; reflexivity.
Defined.

(** Alice is created once; calls made afterwards overlap as they like, and a
    later resolution only reads the store. *)
Lemma resolved_id_is_stable_for_later_calls_witness :
  let w1 := world_of (getStripeCustomerId loggerCtx syncing user usd_order (world [])) in
  let w2 :=
    world_in
      (run_schedule loggerCtx NumberFormat syncing
         [0; 1; 0; 2; 1; 0; 1]%nat
         [start syncing (CallCreatePaymentIntent user usd_order);
          start syncing (CallGetStripeCustomerId user jpy_order);
          start syncing (CallCreateRefund "pi_ORD10" 500)]
         w1) in
  getStripeCustomerId loggerCtx syncing anonymous usd_order w2
  = (Return (Some "cus_alice@example.com"), w2,
     [EvFindOneOrder (IdNum 10) ["customer"]]).
Proof.
  cbv zeta.
  refine (resolved_id_is_stable_for_later_calls loggerCtx NumberFormat syncing
            user usd_order (world []) "cus_alice@example.com" _ _ eq_refl _
            [start syncing (CallCreatePaymentIntent user usd_order);
             start syncing (CallGetStripeCustomerId user jpy_order);
             start syncing (CallCreateRefund "pi_ORD10" 500)]
            [0; 1; 0; 2; 1; 0; 1]%nat anonymous _).
  - discriminate.
  - intros t [<-|[<-|[<-|[]]]]; reflexivity.
Defined.

End InterleavingExamples.
